(** * nat-checker: a shallow embedding of the STUN client and the NAT classifiers

    The development follows the two Go sources of the repository:
    - [client.go]: the STUN wire codec ([encodeMessage], [decodeMessage],
      [parseAddress], [extractErrorCode]) and the two transactions
      ([SendBindingRequest], [GetAlternateAddress]);
    - the classifier file: [determineNATType], [CheckMappingType],
      [CheckFilteringBehavior], [LegacyName].

    Conventions.
    - Go's [byte], [uint16], [uint32] and [int] are [Z]; a [byte] is a value in
      [0, 256), a [uint16] a value in [0, 65536).  Conversions that truncate
      are written out with [mod].  Go's [int] is 64 bits wide; the sums
      computed here are bounded by the size of a buffer, so [int] arithmetic
      is plain [Z] arithmetic.
    - A slice is a [list]; a Go [string] built from received bytes (the reason
      phrase of an error) is the list of its bytes, the other strings are
      [string].
    - [(value, error)] returns are the sum type [errorOr].
    - UDP, name resolution and the random source are an explicit environment
      [World]; every call to it is recorded in a trace, which is the state
      threaded through the transactions. *)

From stdpp Require Import base tactics numbers list strings.

Local Open Scope Z_scope.

(** ** Slices and big-endian integers *)

(** [len(s)] as a Go [int]. *)
Definition len {A} (s : list A) : Z := Z.of_nat (length s).

(** [s[lo:hi]]; the callers below guard [0 <= lo <= hi <= len(s)]. *)
Definition slice {A} (s : list A) (lo hi : Z) : list A :=
  take (Z.to_nat (hi - lo)) (drop (Z.to_nat lo) s).

(** [s[lo:]]. *)
Definition sliceFrom {A} (s : list A) (lo : Z) : list A :=
  drop (Z.to_nat lo) s.

(** [s[i]] on a byte slice; every use below is guarded by a length test. *)
Definition byteAt (s : list Z) (i : Z) : Z :=
  default 0 (s !! Z.to_nat i).

(** [make([]byte, n)]. *)
Definition make (n : Z) : list Z := replicate (Z.to_nat n) 0.

(** [copy(data[lo:hi], src)]: copies [min(hi - lo, len(src))] bytes.  Go
    panics when a window [data[lo:hi]] leaves the buffer, [list_inserts] drops
    the bytes that fall outside; every buffer written below is allocated with
    the size its writes need, so neither happens. *)
Definition copyInto (data : list Z) (lo hi : Z) (src : list Z) : list Z :=
  list_inserts (Z.to_nat lo) (take (Z.to_nat (hi - lo)) src) data.

(** [binary.BigEndian.Uint16(b)]. *)
Definition Uint16 (b : list Z) : Z := byteAt b 0 * 256 + byteAt b 1.

(** [binary.BigEndian.PutUint16(data[off:off+2], v)]. *)
Definition PutUint16 (data : list Z) (off : Z) (v : Z) : list Z :=
  list_inserts (Z.to_nat off) [(v / 256) mod 256; v mod 256] data.

(** [binary.BigEndian.PutUint32(data[off:off+4], v)]. *)
Definition PutUint32 (data : list Z) (off : Z) (v : Z) : list Z :=
  list_inserts (Z.to_nat off)
    [(v / 16777216) mod 256; (v / 65536) mod 256; (v / 256) mod 256; v mod 256]
    data.

(** ** STUN constants and message structure *)

Definition BindingRequest : Z := 0x0001.
Definition BindingResponse : Z := 0x0101.
Definition BindingErrorResponse : Z := 0x0111.

Definition MappedAddress : Z := 0x0001.
Definition XorMappedAddress : Z := 0x0020.
Definition ChangeRequest : Z := 0x0003.
Definition ChangedAddress : Z := 0x0005.
Definition OtherAddress : Z := 0x802C.
Definition ErrorCode : Z := 0x0009.

Definition STUNMagicCookie : Z := 0x2112A442.
Definition STUNMagicCookieBytes : list Z := [0x21; 0x12; 0xA4; 0x42].

Record STUNAttribute := {
  Type_ : Z;          (* STUNAttributeType, uint16 *)
  Length : Z;         (* uint16 *)
  Value : list Z      (* []byte *)
}.

Record STUNMessage := {
  MessageType : Z;            (* STUNMessageType, uint16 *)
  TransactionID : list Z;     (* [12]byte *)
  Attributes : list STUNAttribute
}.

(** [net.UDPAddr], as far as the program uses it. *)
Record UDPAddr := {
  IP : list Z;
  Port : Z
}.

(** The values a Go [error] takes in this program.  Errors of package [net]
    carry the answer of their [Timeout()] method; the errors built with
    [fmt.Errorf] do not implement [net.Error]. *)
Inductive error :=
| ErrNet (timeout : bool)
| ErrMessageTooShort
| ErrStunResponse (code : Z) (reason : list Z)
| ErrMappedAddressNotFound
| ErrOtherAddressNotFound
| ErrAddressTooShort (n : Z)
| ErrIPv4TooShort (n : Z)
| ErrIPv6TooShort (n : Z)
| ErrUnsupportedFamily (family : Z) (data : list Z)
| ErrWrap (stage : string) (cause : error).

Inductive errorOr (A : Type) :=
| Ok (a : A)
| Err (e : error).
Arguments Ok {A} a.
Arguments Err {A} e.

Definition isOk {A} (r : errorOr A) : bool :=
  match r with Ok _ => true | Err _ => false end.

(** ** encodeMessage *)

(** The padding added after a value of [n] bytes:
    [if n%4 != 0 { ... += 4 - int(n%4) }]. *)
Definition padding (n : Z) : Z :=
  if bool_decide (n mod 4 ≠ 0) then 4 - n mod 4 else 0.

(** First loop of [encodeMessage]: the length of the attribute section. *)
Definition attrSectionLen (attrs : list STUNAttribute) : Z :=
  foldl (fun attrLen attr => attrLen + (4 + Length attr) + padding (Length attr))
        0 attrs.

(** Second loop of [encodeMessage]: the attributes written at [offset]. *)
Fixpoint encodeAttributes (attrs : list STUNAttribute) (offset : Z)
    (data : list Z) : list Z :=
  match attrs with
  | [] => data
  | attr :: rest =>
      let data := PutUint16 data offset (Type_ attr) in
      let data := PutUint16 data (offset + 2) (Length attr) in
      let data := copyInto data (offset + 4) (offset + 4 + Length attr)
                           (Value attr) in
      let offset := offset + (4 + Length attr) in
      let offset := offset + padding (Length attr) in
      encodeAttributes rest offset data
  end.

Definition encodeMessage (msg : STUNMessage) : list Z :=
  let attrLen := attrSectionLen (Attributes msg) in
  let data := make (20 + attrLen) in
  let data := PutUint16 data 0 (MessageType msg) in
  let data := PutUint16 data 2 (attrLen mod 65536) in
  let data := PutUint32 data 4 STUNMagicCookie in
  let data := copyInto data 8 20 (TransactionID msg) in
  encodeAttributes (Attributes msg) 20 data.

(** ** decodeMessage *)

(** The attribute loop of [decodeMessage].  Each iteration that does not leave
    the loop advances [offset] by at least 4, so the loop is run with a
    counter of iterations; [None] means the counter ran out before the loop
    ended. *)
Fixpoint decodeAttributes (fuel : nat) (data : list Z) (offset : Z)
    (attrs : list STUNAttribute) : option (list STUNAttribute) :=
  match fuel with
  | O => None
  | S fuel =>
      if bool_decide (offset < len data) then
        if bool_decide (offset + 4 > len data) then Some attrs
        else
          let attrType := Uint16 (slice data offset (offset + 2)) in
          let attrLength := Uint16 (slice data (offset + 2) (offset + 4)) in
          if bool_decide (offset + 4 + attrLength > len data) then Some attrs
          else
            let attr := {| Type_ := attrType;
                           Length := attrLength;
                           Value := copyInto (make attrLength) 0 attrLength
                                      (slice data (offset + 4)
                                             (offset + 4 + attrLength)) |} in
            let attrs := attrs ++ [attr] in
            let offset := offset + (4 + attrLength) in
            let offset := offset + padding attrLength in
            decodeAttributes fuel data offset attrs
      else Some attrs
  end.

(** [decodeMessage]; the loop gets one iteration per input byte, which
    [decodeAttributes_terminates] below shows to be enough. *)
Definition decodeMessage (data : list Z) : errorOr STUNMessage :=
  if bool_decide (len data < 20) then Err ErrMessageTooShort
  else
    Ok {| MessageType := Uint16 (slice data 0 2);
          TransactionID := copyInto (make 12) 0 12 (slice data 8 20);
          Attributes := default [] (decodeAttributes (length data) data 20 []) |}.

(** ** parseAddress *)

(** [for i := 0; i < n; i++ { ip[i] ^= key[i] }]. *)
Definition xorLoop (n : nat) (ip key : list Z) : list Z :=
  foldl (fun ip i => <[i := Z.lxor (default 0 (ip !! i)) (default 0 (key !! i))]> ip)
        ip (seq 0 n).

Definition parseAddress (data : list Z) (isXor : bool) (txID : list Z)
    : errorOr UDPAddr :=
  if bool_decide (len data < 8) then Err (ErrAddressTooShort (len data))
  else
    let family := byteAt data 1 in
    let port := Uint16 (slice data 2 4) in
    if bool_decide (family = 0x01) then
      if bool_decide (len data < 8) then Err (ErrIPv4TooShort (len data))
      else
        let ip := copyInto (make 4) 0 4 (slice data 4 8) in
        if isXor then
          let port := Z.lxor port 0x2112 in
          let ip := xorLoop 4 ip STUNMagicCookieBytes in
          Ok {| IP := ip; Port := port |}
        else Ok {| IP := ip; Port := port |}
    else if bool_decide (family = 0x02) then
      if bool_decide (len data < 20) then Err (ErrIPv6TooShort (len data))
      else
        let ip := copyInto (make 16) 0 16 (slice data 4 20) in
        if isXor then
          let port := Z.lxor port 0x2112 in
          let xorKey := make 16 in
          let xorKey := copyInto xorKey 0 4 STUNMagicCookieBytes in
          let xorKey := copyInto xorKey 4 16 txID in
          let ip := xorLoop 16 ip xorKey in
          Ok {| IP := ip; Port := port |}
        else Ok {| IP := ip; Port := port |}
    else Err (ErrUnsupportedFamily family data).

(** ** extractErrorCode *)

Fixpoint extractErrorCodeFrom (attrs : list STUNAttribute) : Z * list Z :=
  match attrs with
  | [] => (0, [])
  | attr :: rest =>
      if bool_decide (Type_ attr = ErrorCode) && bool_decide (len (Value attr) >= 4)
      then
        let class := Z.land (byteAt (Value attr) 2) 0x07 in
        let number := byteAt (Value attr) 3 in
        let errorCode := class * 100 + number in
        let reason :=
          if bool_decide (len (Value attr) > 4) then sliceFrom (Value attr) 4
          else [] in
        (errorCode, reason)
      else extractErrorCodeFrom rest
  end.

Definition extractErrorCode (msg : STUNMessage) : Z * list Z :=
  extractErrorCodeFrom (Attributes msg).

Definition isChangeRequestUnsupportedError (msg : STUNMessage) : bool :=
  let '(code, _) := extractErrorCode msg in
  bool_decide (code = 420).

(** ** The environment: UDP socket, resolver and random source *)

(** What the program asks of its environment, in the order it asks. *)
Inductive IOEvent :=
| EvListen
| EvClose
| EvResolve (serverAddr : string)
| EvRand
| EvWrite (serverAddr : string) (data : list Z)
| EvRead (deadline : Z).

Definition Trace := list IOEvent.

(** The answers of the environment.  Each answer may depend on everything
    the program has done so far.  A failing call answers with the value of the
    error's [Timeout()] method. *)
Record World := {
  listenUDP : Trace -> option bool;
  resolveUDPAddr : Trace -> string -> option bool;
  randRead : Trace -> list Z;
  writeToUDP : Trace -> string -> list Z -> option bool;
  readFromUDP : Trace -> Z -> bool + list Z
}.

(** Computations over the trace. *)
Definition M (A : Type) : Type := Trace -> A * Trace.

Definition ret {A} (a : A) : M A := fun tr => (a, tr).

Definition bind {A B} (m : M A) (k : A -> M B) : M B :=
  fun tr => let '(a, tr) := m tr in k a tr.

(** [x, err := m; if err != nil { return nil, err }; k x]. *)
Definition bindOk {A B} (m : M (errorOr A)) (k : A -> M (errorOr B))
    : M (errorOr B) :=
  bind m (fun r => match r with Ok a => k a | Err e => ret (Err e) end).

Declare Scope io_scope.
Delimit Scope io_scope with io.
Notation "x <- m ;; k" := (bind m (fun x => k))
  (at level 100, m at next level, right associativity) : io_scope.
Notation "x <-? m ;; k" := (bindOk m (fun x => k))
  (at level 100, m at next level, right associativity) : io_scope.

(** ** The transactions of the STUN client *)

Section Client.

Variable w : World.

Local Open Scope io_scope.

(** [NewSTUNClient]: binds the local UDP endpoint. *)
Definition NewSTUNClient : M (errorOr unit) := fun tr =>
  match listenUDP w tr with
  | Some timeout => (Err (ErrNet timeout), tr ++ [EvListen])
  | None => (Ok (), tr ++ [EvListen])
  end.

Definition Close : M unit := fun tr => ((), tr ++ [EvClose]).

(** [net.ResolveUDPAddr("udp", serverAddr)]. *)
Definition ResolveUDPAddr (serverAddr : string) : M (errorOr string) := fun tr =>
  match resolveUDPAddr w tr serverAddr with
  | Some timeout => (Err (ErrNet timeout), tr ++ [EvResolve serverAddr])
  | None => (Ok serverAddr, tr ++ [EvResolve serverAddr])
  end.

(** [var txID [12]byte; rand.Read(txID[:])]. *)
Definition RandRead : M (list Z) := fun tr =>
  (copyInto (make 12) 0 12 (randRead w tr), tr ++ [EvRand]).

(** [c.conn.WriteToUDP(data, addr)]. *)
Definition WriteToUDP (data : list Z) (addr : string) : M (errorOr unit) :=
  fun tr =>
    match writeToUDP w tr addr data with
    | Some timeout => (Err (ErrNet timeout), tr ++ [EvWrite addr data])
    | None => (Ok (), tr ++ [EvWrite addr data])
    end.

(** [SetReadDeadline], [buffer := make([]byte, 1024)],
    [n, _, err := c.conn.ReadFromUDP(buffer)]; the result is [buffer[:n]]. *)
Definition ReadFromUDP (deadline : Z) : M (errorOr (list Z)) := fun tr =>
  match readFromUDP w tr deadline with
  | inl timeout => (Err (ErrNet timeout), tr ++ [EvRead deadline])
  | inr datagram => (Ok (take 1024 datagram), tr ++ [EvRead deadline])
  end.

(** The loop at the end of [SendBindingRequest]. *)
Fixpoint findMappedAddress (attrs : list STUNAttribute) (txID : list Z)
    : errorOr UDPAddr :=
  match attrs with
  | [] => Err ErrMappedAddressNotFound
  | attr :: rest =>
      if bool_decide (Type_ attr = XorMappedAddress)
      then parseAddress (Value attr) true txID
      else if bool_decide (Type_ attr = MappedAddress)
      then parseAddress (Value attr) false txID
      else findMappedAddress rest txID
  end.

(** The request built by [SendBindingRequest]: a Binding Request, with one
    CHANGE-REQUEST attribute when a flag is set. *)
Definition bindingRequestMessage (txID : list Z) (changeIP changePort : bool)
    : STUNMessage :=
  let msg := {| MessageType := BindingRequest;
                TransactionID := txID;
                Attributes := [] |} in
  if changeIP || changePort then
    let changeValue := 0 in
    let changeValue := if changeIP then Z.lor changeValue 0x04 else changeValue in
    let changeValue := if changePort then Z.lor changeValue 0x02 else changeValue in
    let valueBytes := PutUint32 (make 4) 0 changeValue in
    {| MessageType := MessageType msg;
       TransactionID := TransactionID msg;
       Attributes := Attributes msg ++ [{| Type_ := ChangeRequest;
                                           Length := 4;
                                           Value := valueBytes |}] |}
  else msg.

(** The deadline of the receive, in seconds. *)
Definition readDeadline (changeIP changePort : bool) : Z :=
  if changeIP || changePort then 5 else 3.

(** [SendBindingRequest] once the response is decoded. *)
Definition bindingResult (response : STUNMessage) : errorOr UDPAddr :=
  if bool_decide (MessageType response = BindingErrorResponse) then
    let '(code, reason) := extractErrorCode response in
    Err (ErrStunResponse code reason)
  else
    findMappedAddress (Attributes response) (TransactionID response).

Definition SendBindingRequest (serverAddr : string) (changeIP changePort : bool)
    : M (errorOr UDPAddr) :=
  addr <-? ResolveUDPAddr serverAddr ;;
  txID <- RandRead ;;
  let msg := bindingRequestMessage txID changeIP changePort in
  let data := encodeMessage msg in
  _ <-? WriteToUDP data addr ;;
  let timeout := readDeadline changeIP changePort in
  buffer <-? ReadFromUDP timeout ;;
  response <-? ret (decodeMessage buffer) ;;
  ret (bindingResult response).

(** The loop at the end of [GetAlternateAddress]. *)
Fixpoint findAlternateAddress (attrs : list STUNAttribute) (txID : list Z)
    : errorOr UDPAddr :=
  match attrs with
  | [] => Err ErrOtherAddressNotFound
  | attr :: rest =>
      if bool_decide (Type_ attr = OtherAddress)
         || bool_decide (Type_ attr = ChangedAddress)
      then parseAddress (Value attr) false txID
      else findAlternateAddress rest txID
  end.

Definition GetAlternateAddress (serverAddr : string) : M (errorOr UDPAddr) :=
  addr <-? ResolveUDPAddr serverAddr ;;
  txID <- RandRead ;;
  let msg := {| MessageType := BindingRequest;
                TransactionID := txID;
                Attributes := [] |} in
  let data := encodeMessage msg in
  _ <-? WriteToUDP data addr ;;
  buffer <-? ReadFromUDP 3 ;;
  response <-? ret (decodeMessage buffer) ;;
  ret (findAlternateAddress (Attributes response) (TransactionID response)).

End Client.

(** ** The classifier types and the legacy taxonomy *)

Inductive NATMappingType :=
| EndpointIndependent
| AddressDependent
| AddressPortDependent
| Unknown.

Inductive NATFilteringType :=
| EndpointIndependentFiltering
| AddressDependentFiltering
| AddressPortDependentFiltering
| FilteringUnknown.

Record DetailedNATType := {
  Mapping : NATMappingType;
  Filtering : NATFilteringType
}.

Global Instance NATMappingType_eq_dec : EqDecision NATMappingType.
Proof. solve_decision. Defined.

Global Instance NATFilteringType_eq_dec : EqDecision NATFilteringType.
Proof. solve_decision. Defined.

Definition LegacyName (d : DetailedNATType) : string :=
  if bool_decide (Mapping d = EndpointIndependent)
     && bool_decide (Filtering d = EndpointIndependentFiltering)
  then "Full Cone NAT"
  else if bool_decide (Mapping d = EndpointIndependent)
          && bool_decide (Filtering d = AddressDependentFiltering)
  then "Restricted Cone NAT"
  else if bool_decide (Mapping d = EndpointIndependent)
          && bool_decide (Filtering d = AddressPortDependentFiltering)
  then "Port Restricted Cone NAT"
  else if bool_decide (Mapping d = AddressDependent)
          || bool_decide (Mapping d = AddressPortDependent)
  then "Symmetric NAT"
  else "Unknown NAT Type".

Record STUNServerSupportInfo := {
  SupportsChangeRequest : bool;
  SupportsOtherAddress : bool
}.

Record CheckFilteringResponseData := {
  OtherAddress_ : option UDPAddr;   (* *net.UDPAddr, nil when not harvested *)
  TestIIResponse : bool;
  TestIIIResponse : bool
}.

Record CheckFilteringResult := {
  FilteringType : NATFilteringType;
  FilteringResponse : CheckFilteringResponseData;
  ServerSupport : STUNServerSupportInfo
}.

Record CheckMappingResponseData := {
  MappingA1 : UDPAddr;
  MappingB1 : UDPAddr;
  MappingA2 : UDPAddr
}.

Record CheckMappingResult := {
  NATType : NATMappingType;
  MappingResponse : CheckMappingResponseData
}.

Record FullNATDetectionResult := {
  DetailedType : DetailedNATType;
  MappingResult : CheckMappingResult;
  FilteringResult : CheckFilteringResult
}.

(** ** The mapping classifier *)

(** The three arguments are the pointers returned by three successful
    transactions; a successful transaction never returns [nil]. *)
Definition determineNATType (mappingA1 mappingB1 mappingA2 : UDPAddr)
    : NATMappingType :=
  if bool_decide (Port mappingA1 ≠ Port mappingA2) then AddressPortDependent
  else if bool_decide (Port mappingA1 = Port mappingB1) then EndpointIndependent
  else AddressDependent.

(** [[:3478, :19302]], as its first element and the others. *)
Definition firstPort : string := ":3478".
Definition otherPorts : list string := [":19302"].

Section Classifiers.

Variable w : World.

Local Open Scope io_scope.

(** [for _, port := range ports { r, err = probe(server+port); if err == nil { break } }]
    over a port list that is not empty.  Returns the last address tried and
    the last result. *)
Fixpoint tryPorts {A} (probe : string -> M (errorOr A)) (serverAddr : string)
    (port : string) (ports : list string) : M (string * errorOr A) :=
  let serverWithPort := (serverAddr +:+ port)%string in
  r <- probe serverWithPort ;;
  match r, ports with
  | Err _, port' :: ports' => tryPorts probe serverAddr port' ports'
  | _, _ => ret (serverWithPort, r)
  end.

(** [defer client.Close()]. *)
Definition deferClose {A} (body : M A) : M A :=
  r <- body ;; _ <- Close ;; ret r.

Definition CheckMappingType (serverIpA serverIpB : string)
    : M (errorOr CheckMappingResult) :=
  c <- NewSTUNClient w ;;
  match c with
  | Err e => ret (Err (ErrWrap "STUNクライアント作成エラー" e))
  | Ok _ =>
    deferClose (
      a1 <- tryPorts (fun s => SendBindingRequest w s false false)
                           serverIpA firstPort otherPorts ;;
      match snd a1 with
      | Err e => ret (Err (ErrWrap "サーバーAへのリクエスト失敗" e))
      | Ok mappingA1 =>
        b1 <- tryPorts (fun s => SendBindingRequest w s false false)
                             serverIpB firstPort otherPorts ;;
        match snd b1 with
        | Err e => ret (Err (ErrWrap "サーバーBへのリクエスト失敗" e))
        | Ok mappingB1 =>
          a2 <- tryPorts (fun s => SendBindingRequest w s false false)
                               serverIpA firstPort otherPorts ;;
          match snd a2 with
          | Err e => ret (Err (ErrWrap "サーバーAへの2回目リクエスト失敗" e))
          | Ok mappingA2 =>
            let natType := determineNATType mappingA1 mappingB1 mappingA2 in
            ret (Ok {| NATType := natType;
                       MappingResponse := {| MappingA1 := mappingA1;
                                             MappingB1 := mappingB1;
                                             MappingA2 := mappingA2 |} |})
          end
        end
      end)
  end.

(** ** The filtering classifier *)

(** [netErr, ok := err.(net.Error); ok && netErr.Timeout()]. *)
Definition isTimeout (e : error) : bool :=
  match e with
  | ErrNet timeout => timeout
  | _ => false
  end.

(** Assignments to the fields of [result]. *)
Definition setFilteringType (t : NATFilteringType) (r : CheckFilteringResult)
    : CheckFilteringResult :=
  {| FilteringType := t;
     FilteringResponse := FilteringResponse r;
     ServerSupport := ServerSupport r |}.

Definition setTestIIResponse (b : bool) (r : CheckFilteringResult)
    : CheckFilteringResult :=
  {| FilteringType := FilteringType r;
     FilteringResponse :=
       {| OtherAddress_ := OtherAddress_ (FilteringResponse r);
          TestIIResponse := b;
          TestIIIResponse := TestIIIResponse (FilteringResponse r) |};
     ServerSupport := ServerSupport r |}.

Definition setTestIIIResponse (b : bool) (r : CheckFilteringResult)
    : CheckFilteringResult :=
  {| FilteringType := FilteringType r;
     FilteringResponse :=
       {| OtherAddress_ := OtherAddress_ (FilteringResponse r);
          TestIIResponse := TestIIResponse (FilteringResponse r);
          TestIIIResponse := b |};
     ServerSupport := ServerSupport r |}.

Definition setSupportsChangeRequest (b : bool) (r : CheckFilteringResult)
    : CheckFilteringResult :=
  {| FilteringType := FilteringType r;
     FilteringResponse := FilteringResponse r;
     ServerSupport :=
       {| SupportsChangeRequest := b;
          SupportsOtherAddress := SupportsOtherAddress (ServerSupport r) |} |}.

(** [CheckFilteringBehavior] from Test III on. *)
Definition testIII (serverWithPort : string) (result : CheckFilteringResult)
    : M (errorOr CheckFilteringResult) :=
  r3 <- SendBindingRequest w serverWithPort false true ;;
  let result := setTestIIIResponse (isOk r3) result in
  if TestIIIResponse (FilteringResponse result) then
    let result := setFilteringType AddressDependentFiltering result in
    let result := setSupportsChangeRequest true result in
    ret (Ok result)
  else
    let result := setFilteringType AddressPortDependentFiltering result in
    let result := setSupportsChangeRequest true result in
    ret (Ok result).

(** [CheckFilteringBehavior] from Test II on, once an alternate address has
    been harvested. *)
Definition testII (serverWithPort : string) (result : CheckFilteringResult)
    : M (errorOr CheckFilteringResult) :=
  r2 <- SendBindingRequest w serverWithPort true true ;;
  let result := setTestIIResponse (isOk r2) result in
  if TestIIResponse (FilteringResponse result) then
    let result := setFilteringType EndpointIndependentFiltering result in
    let result := setSupportsChangeRequest true result in
    ret (Ok result)
  else
    match r2 with
    | Err testIIErr =>
        if isTimeout testIIErr then testIII serverWithPort result
        else
          let result := setFilteringType FilteringUnknown result in
          let result := setSupportsChangeRequest false result in
          ret (Ok result)
    | Ok _ => testIII serverWithPort result
    end.

Definition CheckFilteringBehavior (serverAddr : string)
    : M (errorOr CheckFilteringResult) :=
  c <- NewSTUNClient w ;;
  match c with
  | Err e => ret (Err (ErrWrap "STUNクライアント作成エラー" e))
  | Ok _ =>
    deferClose (
      t1 <- tryPorts (GetAlternateAddress w) serverAddr firstPort otherPorts ;;
      let serverWithPort := fst t1 in
      let otherAddr :=
        match snd t1 with Ok a => Some a | Err _ => None end in
      let result :=
        {| FilteringType := EndpointIndependentFiltering;   (* zero value *)
           FilteringResponse := {| OtherAddress_ := otherAddr;
                                   TestIIResponse := false;
                                   TestIIIResponse := false |};
           ServerSupport := {| SupportsChangeRequest := false;
                               SupportsOtherAddress :=
                                 bool_decide (otherAddr ≠ None) |} |} in
      match otherAddr with
      | None =>
          let result := setFilteringType FilteringUnknown result in
          ret (Ok result)
      | Some _ => testII serverWithPort result
      end)
  end.

(** ** The combined detector *)

Definition FullNATDetection (serverIpA serverIpB : string)
    : M (errorOr FullNATDetectionResult) :=
  m <- CheckMappingType serverIpA serverIpB ;;
  match m with
  | Err e => ret (Err (ErrWrap "マッピング判定エラー" e))
  | Ok mappingResult =>
    f <- CheckFilteringBehavior serverIpA ;;
    match f with
    | Err e => ret (Err (ErrWrap "フィルタリング判定エラー" e))
    | Ok filteringResult =>
      let detailedType := {| Mapping := NATType mappingResult;
                             Filtering := FilteringType filteringResult |} in
      ret (Ok {| DetailedType := detailedType;
                 MappingResult := mappingResult;
                 FilteringResult := filteringResult |})
    end
  end.

End Classifiers.

(** ** The names of the behaviours *)

(** [func (n NATMappingType) String() string]. *)
Definition NATMappingType_String (n : NATMappingType) : string :=
  match n with
  | EndpointIndependent => "Endpoint Independent Mapping"
  | AddressDependent => "Address Dependent Mapping"
  | AddressPortDependent => "Address and Port Dependent Mapping"
  | Unknown => "Unknown"
  end.

(** [func (n NATFilteringType) String() string]. *)
Definition NATFilteringType_String (n : NATFilteringType) : string :=
  match n with
  | EndpointIndependentFiltering => "Endpoint Independent Filtering"
  | AddressDependentFiltering => "Address Dependent Filtering"
  | AddressPortDependentFiltering => "Address and Port Dependent Filtering"
  | FilteringUnknown => "Unknown"
  end.

(** [func (d DetailedNATType) String() string]:
    [fmt.Sprintf("%s / %s", d.Mapping, d.Filtering)]. *)
Definition DetailedNATType_String (d : DetailedNATType) : string :=
  NATMappingType_String (Mapping d) +:+ " / "
  +:+ NATFilteringType_String (Filtering d).

(** [func (f FullNATDetectionResult) String() string]:
    [fmt.Sprintf("NAT Type: %s (%s)", f.DetailedType.LegacyName(), f.DetailedType)]. *)
Definition FullNATDetectionResult_String (f : FullNATDetectionResult) : string :=
  "NAT Type: " +:+ LegacyName (DetailedType f) +:+ " ("
  +:+ DetailedNATType_String (DetailedType f) +:+ ")".

(** * Reference definitions used in the statements *)

(** The table of section 4.F of the specification. *)
Definition legacyTable (m : NATMappingType) (f : NATFilteringType) : string :=
  match m, f with
  | EndpointIndependent, EndpointIndependentFiltering => "Full Cone NAT"
  | EndpointIndependent, AddressDependentFiltering => "Restricted Cone NAT"
  | EndpointIndependent, AddressPortDependentFiltering => "Port Restricted Cone NAT"
  | AddressDependent, _ => "Symmetric NAT"
  | AddressPortDependent, _ => "Symmetric NAT"
  | _, _ => "Unknown NAT Type"
  end.

(** The value ranges of Go's [byte] and [uint16]. *)
Definition isByte (b : Z) : Prop := 0 <= b < 256.
Definition isUint16 (v : Z) : Prop := 0 <= v < 65536.

(** A message value as the Go types allow it. *)
Definition wellTypedAttribute (a : STUNAttribute) : Prop :=
  isUint16 (Type_ a) ∧ isUint16 (Length a) ∧ Forall isByte (Value a).

Definition wellTyped (m : STUNMessage) : Prop :=
  isUint16 (MessageType m)
  ∧ length (TransactionID m) = 12%nat
  ∧ Forall isByte (TransactionID m)
  ∧ Forall wellTypedAttribute (Attributes m).

(** Well-formed: every [Length] field is the length of its [Value]. *)
Definition wellFormed (m : STUNMessage) : Prop :=
  Forall (fun a => Length a = len (Value a)) (Attributes m).

(** The bytes of one attribute on the wire: type, length, value, padding. *)
Definition wireAttribute (a : STUNAttribute) : list Z :=
  [(Type_ a / 256) mod 256; Type_ a mod 256;
   (Length a / 256) mod 256; Length a mod 256]
  ++ Value a ++ replicate (Z.to_nat (padding (Length a))) 0.

(** The 20 bytes of a header announcing [n] bytes of attributes. *)
Definition wireHeader (m : STUNMessage) (n : Z) : list Z :=
  [(MessageType m / 256) mod 256; MessageType m mod 256;
   (n / 256) mod 256; n mod 256; 0x21; 0x12; 0xA4; 0x42]
  ++ TransactionID m.

(** A buffer the attribute loop stops at: too short for an attribute header,
    or shorter than the header and the value its length field announces. *)
Definition truncatedAttribute (tail : list Z) : Prop :=
  len tail < 4 ∨ len tail < 4 + Uint16 (slice tail 2 4).

(** What the triple of an attribute is. *)
Definition triple (a : STUNAttribute) : Z * Z * list Z :=
  (Type_ a, Length a, Value a).

(** ** Sample messages and datagrams *)

(** A Binding Request with both CHANGE-REQUEST flags. *)
Definition changeRequestMessage : STUNMessage :=
  {| MessageType := BindingRequest;
     TransactionID := [1; 2; 3; 4; 5; 6; 7; 8; 9; 10; 11; 12];
     Attributes := [{| Type_ := ChangeRequest; Length := 4;
                       Value := [0; 0; 0; 6] |}] |}.

(** Byte [i] (0 the most significant) of the 32-bit magic cookie. *)
Definition cookieByte (i : Z) : Z := (STUNMagicCookie / 256 ^ (3 - i)) mod 256.

(** The value of an XOR-MAPPED-ADDRESS attribute for an IPv4 address
    [ip0.ip1.ip2.ip3] and a port: reserved byte, family 0x01, the port XORed
    with 0x2112, the address bytes XORed with the magic cookie. *)
Definition xorObfuscateIPv4 (ip0 ip1 ip2 ip3 port : Z) : list Z :=
  let xport := Z.lxor port 0x2112 in
  [0; 0x01; (xport / 256) mod 256; xport mod 256;
   Z.lxor ip0 (cookieByte 0); Z.lxor ip1 (cookieByte 1);
   Z.lxor ip2 (cookieByte 2); Z.lxor ip3 (cookieByte 3)].

(** The code and the reason phrase held by the value of an ERROR-CODE
    attribute of at least 4 bytes. *)
Definition errorOfValue (v : list Z) : Z * list Z :=
  (Z.land (byteAt v 2) 0x07 * 100 + byteAt v 3, sliceFrom v 4).

Definition isErrorCode (a : STUNAttribute) : bool :=
  bool_decide (Type_ a = ErrorCode).

Definition isLongErrorCode (a : STUNAttribute) : bool :=
  bool_decide (Type_ a = ErrorCode) && bool_decide (4 <= len (Value a)).

(** Error extraction read as: take the first ERROR-CODE attribute; decode it
    if it has 4 bytes or more, and answer [(0, "")] otherwise. *)
Definition extractFirstErrorCode (msg : STUNMessage) : Z * list Z :=
  match List.find isErrorCode (Attributes msg) with
  | Some a => if bool_decide (4 <= len (Value a)) then errorOfValue (Value a)
              else (0, [])
  | None => (0, [])
  end.

(** An error response whose first ERROR-CODE attribute is too short and whose
    second one carries code 420. *)
Definition twoErrorCodes : STUNMessage :=
  {| MessageType := BindingErrorResponse;
     TransactionID := [1; 2; 3; 4; 5; 6; 7; 8; 9; 10; 11; 12];
     Attributes := [{| Type_ := ErrorCode; Length := 2; Value := [0; 0] |};
                    {| Type_ := ErrorCode; Length := 4; Value := [0; 0; 4; 20] |}] |}.

(** "Unknown Attribute", and the ERROR-CODE value of scenario 4. *)
Definition unknownAttributeText : list Z :=
  [85; 110; 107; 110; 111; 119; 110; 32; 65; 116; 116; 114; 105; 98; 117; 116; 101].

Definition error420 : STUNMessage :=
  {| MessageType := BindingErrorResponse;
     TransactionID := [1; 2; 3; 4; 5; 6; 7; 8; 9; 10; 11; 12];
     Attributes := [{| Type_ := ErrorCode; Length := 21;
                       Value := [0; 0; 4; 20] ++ unknownAttributeText |}] |}.

(** ** Statements about transactions *)

(** The datagram a transaction started at trace [tr] sends, [msg] being the
    request as a function of the transaction identifier. *)
Definition requestOf (w : World) (tr : Trace) (serverAddr : string)
    (msg : list Z -> STUNMessage) : list Z :=
  encodeMessage (msg (copyInto (make 12) 0 12
                        (randRead w (tr ++ [EvResolve serverAddr])))).

(** The trace after a transaction that got as far as its receive. *)
Definition exchangeTrace (w : World) (tr : Trace) (serverAddr : string)
    (msg : list Z -> STUNMessage) (deadline : Z) : Trace :=
  (((tr ++ [EvResolve serverAddr]) ++ [EvRand])
     ++ [EvWrite serverAddr (requestOf w tr serverAddr msg)])
    ++ [EvRead deadline].

(** The transaction started at [tr] resolves its server, sends its request
    and receives [datagram] before the deadline. *)
Definition answered (w : World) (tr : Trace) (serverAddr : string)
    (msg : list Z -> STUNMessage) (deadline : Z) (datagram : list Z) : Prop :=
  let data := requestOf w tr serverAddr msg in
  resolveUDPAddr w tr serverAddr = None
  ∧ writeToUDP w ((tr ++ [EvResolve serverAddr]) ++ [EvRand]) serverAddr data
    = None
  ∧ readFromUDP w (((tr ++ [EvResolve serverAddr]) ++ [EvRand])
                     ++ [EvWrite serverAddr data]) deadline
    = inr datagram.

(** The request of [GetAlternateAddress]. *)
Definition plainRequestMessage (txID : list Z) : STUNMessage :=
  {| MessageType := BindingRequest; TransactionID := txID; Attributes := [] |}.

Definition isMappedAddress (a : STUNAttribute) : bool :=
  bool_decide (Type_ a = XorMappedAddress) || bool_decide (Type_ a = MappedAddress).


(** A world in which every call succeeds and the [n]-th receive gets the
    [n]-th entry of a script: a datagram, or an error with its [Timeout()];
    after the script every receive times out. *)
Fixpoint countReads (tr : Trace) : nat :=
  match tr with
  | [] => 0
  | EvRead _ :: tr => S (countReads tr)
  | _ :: tr => countReads tr
  end.

Definition scriptedWorld (script : list (bool + list Z)) : World :=
  {| listenUDP := fun _ => None;
     resolveUDPAddr := fun _ _ => None;
     randRead := fun _ => [1; 2; 3; 4; 5; 6; 7; 8; 9; 10; 11; 12];
     writeToUDP := fun _ _ _ => None;
     readFromUDP := fun tr _ => nth (countReads tr) script (inl true) |}.

Definition sampleTxID : list Z := [1; 2; 3; 4; 5; 6; 7; 8; 9; 10; 11; 12].

(** A success response carrying MAPPED-ADDRESS 10.0.0.1:1000 followed by
    XOR-MAPPED-ADDRESS 203.0.113.1:54321. *)
Definition mappedThenXor : list Z :=
  [0x01; 0x01; 0x00; 0x18; 0x21; 0x12; 0xA4; 0x42] ++ sampleTxID
  ++ [0x00; 0x01; 0x00; 0x08; 0x00; 0x01; 0x03; 0xE8; 10; 0; 0; 1]
  ++ [0x00; 0x20; 0x00; 0x08] ++ xorObfuscateIPv4 203 0 113 1 54321.

(** A success response carrying only XOR-MAPPED-ADDRESS 203.0.113.1:54321. *)
Definition xorOnly : list Z :=
  [0x01; 0x01; 0x00; 0x0C; 0x21; 0x12; 0xA4; 0x42] ++ sampleTxID
  ++ [0x00; 0x20; 0x00; 0x08] ++ xorObfuscateIPv4 203 0 113 1 54321.


(** A success response carrying only OTHER-ADDRESS 198.51.100.2:3479. *)
Definition otherOnly : list Z :=
  [0x01; 0x01; 0x00; 0x0C; 0x21; 0x12; 0xA4; 0x42] ++ sampleTxID
  ++ [0x80; 0x2C; 0x00; 0x08; 0x00; 0x01; 0x0D; 0x97; 198; 51; 100; 2].

(** An error response with ERROR-CODE 420. *)
Definition error420Datagram : list Z :=
  [0x01; 0x11; 0x00; 0x08; 0x21; 0x12; 0xA4; 0x42] ++ sampleTxID
  ++ [0x00; 0x09; 0x00; 0x04; 0x00; 0x00; 0x04; 0x14].

(** The messages held by [mappedThenXor] and [changedThenOther]. *)
Definition plainMapped : STUNAttribute :=
  {| Type_ := MappedAddress; Length := 8;
     Value := [0x00; 0x01; 0x03; 0xE8; 10; 0; 0; 1] |}.

Definition xorMapped : STUNAttribute :=
  {| Type_ := XorMappedAddress; Length := 8;
     Value := xorObfuscateIPv4 203 0 113 1 54321 |}.

Definition mappedThenXorResponse : STUNMessage :=
  {| MessageType := BindingResponse;
     TransactionID := sampleTxID;
     Attributes := [plainMapped; xorMapped] |}.




Definition sampleServer : string := "stun.example.org".

(** The verdicts of the filtering classifier after Test II fails. *)
Definition verdictUnsupported (otherAddr : UDPAddr) : CheckFilteringResult :=
  {| FilteringType := FilteringUnknown;
     FilteringResponse := {| OtherAddress_ := Some otherAddr;
                             TestIIResponse := false;
                             TestIIIResponse := false |};
     ServerSupport := {| SupportsChangeRequest := false;
                         SupportsOtherAddress := true |} |}.

Definition verdictOfTestIII (otherAddr : UDPAddr) (r3 : errorOr UDPAddr)
    : CheckFilteringResult :=
  {| FilteringType := if isOk r3 then AddressDependentFiltering
                      else AddressPortDependentFiltering;
     FilteringResponse := {| OtherAddress_ := Some otherAddr;
                             TestIIResponse := false;
                             TestIIIResponse := isOk r3 |};
     ServerSupport := {| SupportsChangeRequest := true;
                         SupportsOtherAddress := true |} |}.

(** Two servers that give an alternate address: one answers Test II with
    error 420, the other never answers a CHANGE-REQUEST. *)
Definition unsupportingWorld : World :=
  scriptedWorld [inr otherOnly; inr error420Datagram].

Definition silentWorld : World :=
  scriptedWorld [inr otherOnly; inl true; inl true].

(** The success response of scenario 2, and an attribute header announcing 8
    bytes of which only 2 are there. *)
Definition successHeader : list Z :=
  [0x01; 0x01; 0x00; 0x00; 0x21; 0x12; 0xA4; 0x42] ++ sampleTxID.

Definition truncatedTail : list Z := [0x00; 0x01; 0x00; 0x08; 0x0A; 0x00].

(** ** Reference definitions for the further properties *)

(** An attribute on the wire with arbitrary padding bytes. *)
Definition wireAttributeWith (a : STUNAttribute) (pad : list Z) : list Z :=
  [(Type_ a / 256) mod 256; Type_ a mod 256;
   (Length a / 256) mod 256; Length a mod 256]
  ++ Value a ++ pad.

(** The attributes of a message with their paddings, on the wire. *)
Fixpoint wireAttributesWith (attrs : list STUNAttribute) (pads : list (list Z))
    : list Z :=
  match attrs, pads with
  | a :: attrs, pad :: pads => wireAttributeWith a pad ++ wireAttributesWith attrs pads
  | _, _ => []
  end.

(** Every attribute is well typed and well formed, and has a padding of the
    right length. *)
Fixpoint paddedAttributes (attrs : list STUNAttribute) (pads : list (list Z))
    : Prop :=
  match attrs, pads with
  | [], [] => True
  | a :: attrs, pad :: pads =>
      isUint16 (Type_ a) ∧ isUint16 (Length a) ∧ Length a = len (Value a)
      ∧ len pad = padding (Length a) ∧ paddedAttributes attrs pads
  | _, _ => False
  end.

(** What a decoded attribute satisfies. *)
Definition decodedAttribute (a : STUNAttribute) : Prop :=
  isUint16 (Type_ a) ∧ isUint16 (Length a) ∧ Forall isByte (Value a)
  ∧ Length a = len (Value a).

(** The value of an XOR-MAPPED-ADDRESS attribute for a 16-byte IPv6 address
    and a port: the port XORed with 0x2112, the address with the magic cookie
    followed by the transaction identifier. *)
Definition xorObfuscateIPv6 (ip : list Z) (port : Z) (txID : list Z) : list Z :=
  let xport := Z.lxor port 0x2112 in
  [0; 0x02; (xport / 256) mod 256; xport mod 256]
  ++ zip_with Z.lxor ip
       ([cookieByte 0; cookieByte 1; cookieByte 2; cookieByte 3] ++ txID).

(** The XOR-MAPPED-ADDRESS attribute of [xorMapped], of 8 bytes, and a
    MAPPED-ADDRESS attribute of 5 bytes with 3 bytes of padding that are not
    zero. *)
Definition oddAttribute : STUNAttribute :=
  {| Type_ := MappedAddress; Length := 5; Value := [0x00; 0x01; 0x03; 0xE8; 10] |}.

Definition oddPadding : list Z := [0xAA; 0xBB; 0xCC].

(** An error response with ERROR-CODE 420 that also carries the
    XOR-MAPPED-ADDRESS 203.0.113.1:54321. *)
Definition error420WithAddress : list Z :=
  [0x01; 0x11; 0x00; 0x14; 0x21; 0x12; 0xA4; 0x42] ++ sampleTxID
  ++ [0x00; 0x20; 0x00; 0x08] ++ xorObfuscateIPv4 203 0 113 1 54321
  ++ [0x00; 0x09; 0x00; 0x04; 0x00; 0x00; 0x04; 0x14].

(** A Binding Request (type 0x0001), with another transaction identifier,
    that carries the MAPPED-ADDRESS 10.0.0.1:1000. *)
Definition requestWithAddress : list Z :=
  [0x00; 0x01; 0x00; 0x0C; 0x21; 0x12; 0xA4; 0x42]
  ++ [9; 9; 9; 9; 9; 9; 9; 9; 9; 9; 9; 9]
  ++ [0x00; 0x01; 0x00; 0x08; 0x00; 0x01; 0x03; 0xE8; 10; 0; 0; 1].

(** Worlds in which the resolution fails, the send fails, or both succeed. *)
Definition unresolvedWorld : World :=
  {| listenUDP := fun _ => None;
     resolveUDPAddr := fun _ _ => Some false;
     randRead := fun _ => sampleTxID;
     writeToUDP := fun _ _ _ => None;
     readFromUDP := fun _ _ => inl true |}.

Definition unsendingWorld : World :=
  {| listenUDP := fun _ => None;
     resolveUDPAddr := fun _ _ => None;
     randRead := fun _ => sampleTxID;
     writeToUDP := fun _ _ _ => Some false;
     readFromUDP := fun _ _ => inl true |}.

(** The events of a transaction: everything but binding and closing the
    socket. *)
Definition isTransactionEvent (e : IOEvent) : Prop :=
  match e with
  | EvListen | EvClose => False
  | _ => True
  end.

(** The verdict of the filtering classifier when no alternate address could
    be harvested, and when Test II was answered. *)
Definition verdictNoAlternate : CheckFilteringResult :=
  {| FilteringType := FilteringUnknown;
     FilteringResponse := {| OtherAddress_ := None;
                             TestIIResponse := false;
                             TestIIIResponse := false |};
     ServerSupport := {| SupportsChangeRequest := false;
                         SupportsOtherAddress := false |} |}.

Definition verdictEndpointIndependent (otherAddr : UDPAddr)
    : CheckFilteringResult :=
  {| FilteringType := EndpointIndependentFiltering;
     FilteringResponse := {| OtherAddress_ := Some otherAddr;
                             TestIIResponse := true;
                             TestIIIResponse := false |};
     ServerSupport := {| SupportsChangeRequest := true;
                         SupportsOtherAddress := true |} |}.

(** A world in which the socket cannot be bound. *)
Definition unboundWorld : World :=
  {| listenUDP := fun _ => Some false;
     resolveUDPAddr := fun _ _ => None;
     randRead := fun _ => sampleTxID;
     writeToUDP := fun _ _ _ => None;
     readFromUDP := fun _ _ => inl true |}.

(** A server that gives no alternate address, and one that answers Test II. *)
Definition plainWorld : World :=
  scriptedWorld [inr xorOnly; inr xorOnly].

Definition openWorld : World :=
  scriptedWorld [inr otherOnly; inr xorOnly].

(** A server that answers Test II with a success response that carries no
    mapped address. *)
Definition emptyAnswerWorld : World :=
  scriptedWorld [inr otherOnly; inr successHeader].

(** An attribute as the encoder writes it: the value cut, or filled with
    zero bytes, to the length its length field announces. *)
Definition normalizeAttribute (a : STUNAttribute) : STUNAttribute :=
  {| Type_ := Type_ a;
     Length := Length a;
     Value := take (Z.to_nat (Length a)) (Value a)
              ++ replicate (Z.to_nat (Length a) - length (Value a)) 0 |}.

Definition normalizeMessage (m : STUNMessage) : STUNMessage :=
  {| MessageType := MessageType m;
     TransactionID := TransactionID m;
     Attributes := map normalizeAttribute (Attributes m) |}.

(** A message whose first attribute announces fewer bytes than its value has
    and whose second announces more. *)
Definition inconsistentMessage : STUNMessage :=
  {| MessageType := BindingRequest;
     TransactionID := sampleTxID;
     Attributes := [{| Type_ := ChangeRequest; Length := 2;
                       Value := [1; 2; 3; 4; 5] |};
                    {| Type_ := MappedAddress; Length := 4;
                       Value := [7] |}] |}.

(** * Lemmas on the wire codec *)

(** Linear arithmetic with division and remainder by constants. *)
Ltac divmod_lia := Z.div_mod_to_equations; lia.

(** ** Slices *)

Lemma len_app {A} (l k : list A) : len (l ++ k) = len l + len k.
Proof. unfold len. rewrite length_app. lia. Qed.

Lemma len_nonneg {A} (l : list A) : 0 <= len l.
Proof. unfold len. lia. Qed.

Lemma slice_app_shift {A} (pre l : list A) (lo hi : Z) :
  0 <= lo -> slice (pre ++ l) (len pre + lo) (len pre + hi) = slice l lo hi.
Proof.
  intros Hlo. unfold slice, len.
  replace (Z.to_nat (Z.of_nat (length pre) + lo))
    with (length pre + Z.to_nat lo)%nat by lia.
  rewrite drop_app_add. f_equal. lia.
Qed.

Lemma slice_app_shift0 {A} (pre l : list A) (hi : Z) :
  slice (pre ++ l) (len pre) (len pre + hi) = slice l 0 hi.
Proof.
  rewrite <- (Z.add_0_r (len pre)) at 1. by rewrite slice_app_shift.
Qed.

Lemma copyInto_make (n : Z) (src : list Z) :
  n = len src -> copyInto (make n) 0 n src = src.
Proof.
  intros ->. unfold copyInto, make, len. simpl.
  rewrite Z.sub_0_r, Nat2Z.id, firstn_all.
  rewrite <- (app_nil_r (replicate _ _)).
  rewrite list_inserts_0_r by (by rewrite length_replicate).
  apply app_nil_r.
Qed.

(** Writing [src] over a window of the same length. *)
Lemma list_inserts_window {A} (pre mid post src : list A) (off : nat) :
  off = length pre -> length src = length mid ->
  list_inserts off src (pre ++ mid ++ post) = pre ++ src ++ post.
Proof.
  intros -> Hlen.
  rewrite <- (Nat.add_0_r (length pre)), list_inserts_app_r.
  f_equal. by apply list_inserts_0_r.
Qed.

(** ** Big-endian 16-bit values *)

Lemma Uint16_bytes (v : Z) (l : list Z) :
  0 <= v < 65536 -> Uint16 ((v / 256) mod 256 :: v mod 256 :: l) = v.
Proof. intros Hv. unfold Uint16, byteAt. simpl. divmod_lia. Qed.

(** ** The attribute loop of the decoder *)

Lemma padding_range (n : Z) : 0 <= padding n < 4.
Proof. unfold padding. case_bool_decide; divmod_lia. Qed.

Lemma Forall_slice {A} (P : A -> Prop) (l : list A) (lo hi : Z) :
  Forall P l -> Forall P (slice l lo hi).
Proof. intros H. unfold slice. by apply Forall_take, Forall_drop. Qed.

Lemma Uint16_nonneg (b : list Z) : Forall (fun x => 0 <= x) b -> 0 <= Uint16 b.
Proof.
  intros Hb. unfold Uint16, byteAt.
  assert (Hin : forall i, 0 <= default 0 (b !! i)).
  { intros i. destruct (b !! i) as [x|] eqn:Hx; simpl; [|lia].
    by eapply (Forall_lookup_1 _ _ _ _ Hb Hx). }
  pose proof (Hin (Z.to_nat 0)). pose proof (Hin (Z.to_nat 1)). lia.
Qed.

(** The loop ends within its counter: an iteration that continues moves
    [offset] forward, and the loop is left once [offset] reaches the end. *)
Lemma decodeAttributes_terminates (data : list Z) :
  Forall (fun x => 0 <= x) data ->
  forall (fuel : nat) (offset : Z) (attrs : list STUNAttribute),
    (0 < fuel)%nat -> len data - offset < Z.of_nat fuel ->
    is_Some (decodeAttributes fuel data offset attrs).
Proof.
  intros Hdata. induction fuel as [|fuel IH]; intros offset attrs Hpos Hfuel.
  { lia. }
  simpl. case_bool_decide; [|eauto]. case_bool_decide; [eauto|].
  case_bool_decide; [eauto|].
  pose proof (Uint16_nonneg (slice data (offset + 2) (offset + 4))
                (Forall_slice _ _ _ _ Hdata)).
  pose proof (padding_range (Uint16 (slice data (offset + 2) (offset + 4)))).
  apply IH; lia.
Qed.

(** More iterations than needed do not change the outcome. *)
Lemma decodeAttributes_fuel_mono (data : list Z) (fuel fuel' : nat) :
  (fuel <= fuel')%nat ->
  forall (offset : Z) (attrs r : list STUNAttribute),
    decodeAttributes fuel data offset attrs = Some r ->
    decodeAttributes fuel' data offset attrs = Some r.
Proof.
  revert fuel'. induction fuel as [|fuel IH]; intros fuel' Hle offset attrs r.
  { discriminate. }
  destruct fuel' as [|fuel']; [lia|]. simpl.
  repeat case_bool_decide; try done. apply IH. lia.
Qed.

(** The loop looks at the buffer from [offset] on only. *)
Lemma decodeAttributes_shift (pre data : list Z) :
  Forall (fun x => 0 <= x) data ->
  forall (fuel : nat) (offset : Z) (attrs : list STUNAttribute),
    0 <= offset ->
    decodeAttributes fuel (pre ++ data) (len pre + offset) attrs
    = decodeAttributes fuel data offset attrs.
Proof.
  intros Hdata. induction fuel as [|fuel IH]; intros offset attrs Hoff; [done|].
  simpl. rewrite len_app.
  replace (len pre + offset + 2) with (len pre + (offset + 2)) by lia.
  replace (len pre + offset + 4) with (len pre + (offset + 4)) by lia.
  rewrite !slice_app_shift by lia.
  set (attrLength := Uint16 (slice data (offset + 2) (offset + 4))).
  replace (len pre + (offset + 4) + attrLength)
    with (len pre + (offset + 4 + attrLength)) by lia.
  assert (0 <= attrLength)
    by (apply Uint16_nonneg, Forall_slice, Hdata).
  pose proof (padding_range attrLength).
  rewrite !slice_app_shift by lia.
  replace (len pre + offset + (4 + attrLength) + padding attrLength)
    with (len pre + (offset + (4 + attrLength) + padding attrLength)) by lia.
  rewrite IH by lia.
  repeat case_bool_decide; try done; lia.
Qed.

(** ** The encoder writes the wire form *)

Lemma length_wireAttribute (a : STUNAttribute) :
  length (wireAttribute a)
  = (4 + length (Value a) + Z.to_nat (padding (Length a)))%nat.
Proof.
  unfold wireAttribute. rewrite length_app, length_app, length_replicate.
  simpl. lia.
Qed.

Lemma encodeAttributes_wire (attrs : list STUNAttribute) :
  Forall (fun a => Length a = len (Value a)) attrs ->
  forall (pre : list Z) (k : nat),
    encodeAttributes attrs (len pre)
      (pre ++ replicate (length (concat (map wireAttribute attrs)) + k) 0)
    = pre ++ concat (map wireAttribute attrs) ++ replicate k 0.
Proof.
  induction 1 as [|a attrs Ha _ IH]; intros pre k; [done|].
  cbn [encodeAttributes concat map].
  rewrite length_app, length_wireAttribute.
  pose proof (padding_range (Length a)) as Hpad.
  set (rest := length (concat (map wireAttribute attrs))).
  replace (4 + length (Value a) + Z.to_nat (padding (Length a)) + rest + k)%nat
    with (2 + (2 + (length (Value a)
                    + (Z.to_nat (padding (Length a)) + (rest + k)))))%nat by lia.
  rewrite !(replicate_add _ _ 0).
  unfold PutUint16 at 2.
  rewrite list_inserts_window by (unfold len; simpl; lia).
  unfold PutUint16.
  rewrite (app_assoc pre [_; _]).
  rewrite list_inserts_window
    by (unfold len; rewrite ?length_app; simpl; lia).
  unfold copyInto.
  replace (Z.to_nat (len pre + 4 + Length a - (len pre + 4)))
    with (length (Value a)) by (unfold len in *; lia).
  rewrite firstn_all.
  rewrite (app_assoc _ [_; _]).
  rewrite list_inserts_window
    by (unfold len; rewrite ?length_app, ?length_replicate; simpl; lia).
  rewrite <- replicate_add.
  replace (len pre + (4 + Length a) + padding (Length a))
    with (len (pre ++ wireAttribute a)).
  2:{ unfold len in *. rewrite length_app, length_wireAttribute. lia. }
  match goal with
  | |- encodeAttributes _ _ ?buf = _ =>
      replace buf with ((pre ++ wireAttribute a) ++ replicate (rest + k) 0)
  end.
  2:{ unfold wireAttribute. rewrite (replicate_add _ _ 0).
      by rewrite <- !app_assoc. }
  rewrite IH. by rewrite <- !app_assoc.
Qed.

Lemma attrSectionLen_wire (attrs : list STUNAttribute) :
  Forall (fun a => Length a = len (Value a)) attrs ->
  attrSectionLen attrs = len (concat (map wireAttribute attrs)).
Proof.
  unfold attrSectionLen. intros Hwf.
  assert (Hgen : forall acc,
    foldl (fun attrLen attr => attrLen + (4 + Length attr) + padding (Length attr))
          acc attrs
    = acc + len (concat (map wireAttribute attrs))); [|by rewrite Hgen].
  induction Hwf as [|a attrs Ha _ IH]; intros acc.
  { unfold len. simpl. lia. }
  cbn [foldl concat map]. rewrite IH, len_app.
  pose proof (padding_range (Length a)).
  unfold len in *. rewrite length_wireAttribute. lia.
Qed.

Lemma encodeMessage_wire (m : STUNMessage) :
  length (TransactionID m) = 12%nat -> wellFormed m ->
  encodeMessage m
  = wireHeader m (attrSectionLen (Attributes m) mod 65536)
    ++ concat (map wireAttribute (Attributes m)).
Proof.
  intros Htid Hwf. unfold encodeMessage, wireHeader.
  rewrite (attrSectionLen_wire _ Hwf) at 1.
  set (n := attrSectionLen (Attributes m) mod 65536).
  set (body := concat (map wireAttribute (Attributes m))).
  destruct m as [ty tid attrs]; simpl in *.
  do 13 (destruct tid as [|? tid]; try discriminate). clear Htid.
  unfold make, len.
  replace (Z.to_nat (20 + Z.of_nat (length body)))
    with (20 + (length body + 0))%nat by lia.
  rewrite (replicate_add _ _ 0).
  set (hdr := [(ty / 256) mod 256; ty mod 256; (n / 256) mod 256; n mod 256;
               0x21; 0x12; 0xA4; 0x42; z; z0; z1; z2; z3; z4; z5; z6; z7; z8;
               z9; z10]).
  transitivity (encodeAttributes attrs (len hdr)
                  (hdr ++ replicate (length body + 0) 0)); [reflexivity|].
  subst body. rewrite encodeAttributes_wire by done.
  by rewrite app_nil_r.
Qed.

(** ** The decoder reads the wire form back *)

Lemma decodeAttributes_wire (attrs : list STUNAttribute) :
  Forall (fun a => isUint16 (Type_ a) ∧ isUint16 (Length a)
                   ∧ Length a = len (Value a)) attrs ->
  forall (pre tail : list Z) (acc : list STUNAttribute) (fuel : nat),
    truncatedAttribute tail -> (length attrs < fuel)%nat ->
    decodeAttributes fuel (pre ++ concat (map wireAttribute attrs) ++ tail)
                     (len pre) acc
    = Some (acc ++ attrs).
Proof.
  induction 1 as [|a attrs (Hty & Hlen & Hval) _ IH];
    intros pre tail acc fuel Htail Hfuel;
    (destruct fuel as [|fuel]; [simpl in Hfuel; lia|]).
  - cbn [concat map app decodeAttributes]. rewrite app_nil_r, len_app.
    replace (len pre + 2) with (len pre + (0 + 2)) by lia.
    replace (len pre + 4) with (len pre + (0 + 4)) by lia.
    rewrite slice_app_shift by lia. rewrite !Z.add_0_l.
    pose proof (len_nonneg tail). unfold truncatedAttribute in Htail.
    repeat case_bool_decide; try done; lia.
  - cbn [concat map decodeAttributes].
    set (rest := concat (map wireAttribute attrs) ++ tail).
    rewrite <- (app_assoc (wireAttribute a)). fold rest.
    rewrite !len_app.
    pose proof (len_nonneg rest). pose proof (len_nonneg (Value a)).
    pose proof (padding_range (Length a)) as Hpad.
    assert (Hwire : len (wireAttribute a) = 4 + Length a + padding (Length a)).
    { unfold len in *. rewrite length_wireAttribute. lia. }
    replace (len pre + 2) with (len pre + (0 + 2)) by lia.
    replace (len pre + 4) with (len pre + (0 + 4)) by lia.
    rewrite slice_app_shift0, !slice_app_shift by lia.
    assert (Hu1 : Uint16 (slice (wireAttribute a ++ rest) 0 (0 + 2)) = Type_ a).
    { unfold wireAttribute, slice. simpl. by apply Uint16_bytes. }
    assert (Hu2 : Uint16 (slice (wireAttribute a ++ rest) (0 + 2) (0 + 4))
                  = Length a).
    { unfold wireAttribute, slice. simpl. by apply Uint16_bytes. }
    rewrite Hu1, Hu2.
    replace (len pre + (0 + 4) + Length a)
      with (len pre + (0 + 4 + Length a)) by lia.
    rewrite slice_app_shift by lia.
    assert (Hv : slice (wireAttribute a ++ rest) (0 + 4) (0 + 4 + Length a)
                 = Value a).
    { unfold wireAttribute, slice. simpl.
      replace (Z.to_nat (0 + 4 + Length a - (0 + 4))) with (length (Value a))
        by (unfold len in *; lia).
      rewrite <- !app_assoc, drop_0. apply take_app_length. }
    rewrite Hv, copyInto_make by done.
    rewrite !bool_decide_eq_true_2 by lia.
    rewrite !bool_decide_eq_false_2 by lia.
    replace (len pre + (4 + Length a) + padding (Length a))
      with (len (pre ++ wireAttribute a)) by (rewrite len_app; lia).
    rewrite (app_assoc pre). subst rest.
    rewrite IH by (done || simpl in Hfuel; lia).
    destruct a. by rewrite <- app_assoc.
Qed.

Lemma length_concat_wire (attrs : list STUNAttribute) :
  (length attrs <= length (concat (map wireAttribute attrs)))%nat.
Proof.
  induction attrs as [|a attrs IH]; simpl; [lia|].
  rewrite !length_app. simpl. lia.
Qed.

(** Decoding a 20-byte header followed by attributes in wire form and by a
    truncated attribute. *)
Lemma decodeMessage_wire (hdr : list Z) (attrs : list STUNAttribute)
    (tail : list Z) :
  length hdr = 20%nat ->
  Forall (fun a => isUint16 (Type_ a) ∧ isUint16 (Length a)
                   ∧ Length a = len (Value a)) attrs ->
  truncatedAttribute tail ->
  let data := hdr ++ concat (map wireAttribute attrs) ++ tail in
  decodeAttributes (length data) data 20 [] = Some attrs
  ∧ decodeMessage data
    = Ok {| MessageType := Uint16 (slice hdr 0 2);
            TransactionID := slice hdr 8 20;
            Attributes := attrs |}.
Proof.
  intros Hhdr Hattrs Htail data.
  assert (Hloop : decodeAttributes (length data) data 20 [] = Some attrs).
  { subst data. replace 20 with (len hdr) by (unfold len; lia).
    rewrite decodeAttributes_wire; [done..|].
    pose proof (length_concat_wire attrs). rewrite !length_app. lia. }
  split; [done|].
  unfold decodeMessage. rewrite Hloop.
  rewrite bool_decide_eq_false_2
    by (subst data; unfold len; rewrite length_app; lia).
  subst data. do 21 (destruct hdr as [|? hdr]; try discriminate).
  reflexivity.
Qed.

Lemma length_slice {A} (l : list A) (lo hi : Z) :
  0 <= lo <= hi -> hi <= len l -> len (slice l lo hi) = hi - lo.
Proof.
  intros Hlo Hhi. unfold slice, len in *. rewrite length_take, length_drop. lia.
Qed.

Lemma isByte_nonneg (l : list Z) :
  Forall isByte l -> Forall (fun x => 0 <= x) l.
Proof. intros H. eapply Forall_impl; [exact H|]. unfold isByte. simpl. lia. Qed.

(** The decoder reads bytes 0..2 and 8.. of its input, and its length. *)
Lemma decodeMessage_prefix8 (pre rest : list Z) :
  length pre = 8%nat -> Forall (fun x => 0 <= x) rest ->
  decodeMessage (pre ++ rest)
  = if bool_decide (len rest < 12) then Err ErrMessageTooShort
    else Ok {| MessageType := Uint16 (slice pre 0 2);
               TransactionID := copyInto (make 12) 0 12 (slice rest 0 12);
               Attributes :=
                 default [] (decodeAttributes (8 + length rest) rest 12 []) |}.
Proof.
  intros Hpre Hrest. unfold decodeMessage.
  assert (Hlen : len pre = 8) by (unfold len; lia).
  rewrite len_app, Hlen, length_app, Hpre.
  assert (Htid : slice (pre ++ rest) 8 20 = slice rest 0 12).
  { rewrite <- (slice_app_shift pre rest 0 12) by lia. f_equal; lia. }
  assert (Hloop : decodeAttributes (8 + length rest) (pre ++ rest) 20 []
                  = decodeAttributes (8 + length rest) rest 12 []).
  { rewrite <- (decodeAttributes_shift pre rest Hrest _ 12 []) by lia.
    f_equal. lia. }
  rewrite Htid, Hloop.
  assert (Hty : Uint16 (slice (pre ++ rest) 0 2) = Uint16 (slice pre 0 2)).
  { do 9 (destruct pre as [|? pre]; try discriminate). reflexivity. }
  rewrite Hty. repeat case_bool_decide; done || lia.
Qed.

(** * Lemmas on the transactions *)

Section ClientLemmas.

Variable w : World.

(** [SendBindingRequest], step by step. *)
Lemma SendBindingRequest_run (serverAddr : string) (changeIP changePort : bool)
    (tr : Trace) :
  SendBindingRequest w serverAddr changeIP changePort tr
  = let msg := fun txID => bindingRequestMessage txID changeIP changePort in
    let data := requestOf w tr serverAddr msg in
    let deadline := readDeadline changeIP changePort in
    let tr1 := tr ++ [EvResolve serverAddr] in
    let tr2 := tr1 ++ [EvRand] in
    let tr3 := tr2 ++ [EvWrite serverAddr data] in
    match resolveUDPAddr w tr serverAddr with
    | Some timeout => (Err (ErrNet timeout), tr1)
    | None =>
        match writeToUDP w tr2 serverAddr data with
        | Some timeout => (Err (ErrNet timeout), tr3)
        | None =>
            match readFromUDP w tr3 deadline with
            | inl timeout => (Err (ErrNet timeout), tr3 ++ [EvRead deadline])
            | inr datagram =>
                (match decodeMessage (take 1024 datagram) with
                 | Ok response => bindingResult response
                 | Err e => Err e
                 end, tr3 ++ [EvRead deadline])
            end
        end
    end.
Proof.
  unfold SendBindingRequest, bindOk, bind, ret, ResolveUDPAddr, RandRead,
    WriteToUDP, ReadFromUDP, requestOf. simpl.
  destruct (resolveUDPAddr w tr serverAddr); [done|].
  destruct (writeToUDP w _ serverAddr _); [done|].
  destruct (readFromUDP w _ _); [done|].
  by destruct (decodeMessage _).
Qed.

(** [GetAlternateAddress], step by step. *)
Lemma GetAlternateAddress_run (serverAddr : string) (tr : Trace) :
  GetAlternateAddress w serverAddr tr
  = let data := requestOf w tr serverAddr plainRequestMessage in
    let tr1 := tr ++ [EvResolve serverAddr] in
    let tr2 := tr1 ++ [EvRand] in
    let tr3 := tr2 ++ [EvWrite serverAddr data] in
    match resolveUDPAddr w tr serverAddr with
    | Some timeout => (Err (ErrNet timeout), tr1)
    | None =>
        match writeToUDP w tr2 serverAddr data with
        | Some timeout => (Err (ErrNet timeout), tr3)
        | None =>
            match readFromUDP w tr3 3 with
            | inl timeout => (Err (ErrNet timeout), tr3 ++ [EvRead 3])
            | inr datagram =>
                (match decodeMessage (take 1024 datagram) with
                 | Ok response =>
                     findAlternateAddress (Attributes response)
                                          (TransactionID response)
                 | Err e => Err e
                 end, tr3 ++ [EvRead 3])
            end
        end
    end.
Proof.
  unfold GetAlternateAddress, bindOk, bind, ret, ResolveUDPAddr, RandRead,
    WriteToUDP, ReadFromUDP, requestOf, plainRequestMessage. simpl.
  destruct (resolveUDPAddr w tr serverAddr); [done|].
  destruct (writeToUDP w _ serverAddr _); [done|].
  destruct (readFromUDP w _ _); [done|].
  by destruct (decodeMessage _).
Qed.

(** A transaction that is answered returns what its response holds. *)
Lemma SendBindingRequest_answered (serverAddr : string)
    (changeIP changePort : bool) (tr : Trace) (datagram : list Z) :
  answered w tr serverAddr
           (fun txID => bindingRequestMessage txID changeIP changePort)
           (readDeadline changeIP changePort) datagram ->
  SendBindingRequest w serverAddr changeIP changePort tr
  = (match decodeMessage (take 1024 datagram) with
     | Ok response => bindingResult response
     | Err e => Err e
     end,
     exchangeTrace w tr serverAddr
       (fun txID => bindingRequestMessage txID changeIP changePort)
       (readDeadline changeIP changePort)).
Proof.
  intros (Hres & Hwr & Hrd). rewrite SendBindingRequest_run. simpl.
  by rewrite Hres, Hwr, Hrd.
Qed.

Lemma GetAlternateAddress_answered (serverAddr : string) (tr : Trace)
    (datagram : list Z) :
  answered w tr serverAddr plainRequestMessage 3 datagram ->
  GetAlternateAddress w serverAddr tr
  = (match decodeMessage (take 1024 datagram) with
     | Ok response =>
         findAlternateAddress (Attributes response) (TransactionID response)
     | Err e => Err e
     end,
     exchangeTrace w tr serverAddr plainRequestMessage 3).
Proof.
  intros (Hres & Hwr & Hrd). rewrite GetAlternateAddress_run. simpl.
  by rewrite Hres, Hwr, Hrd.
Qed.

(** Every attempt of a transaction shows in the trace. *)
Lemma SendBindingRequest_trace (serverAddr : string)
    (changeIP changePort : bool) (tr : Trace) :
  ∃ events, snd (SendBindingRequest w serverAddr changeIP changePort tr)
            = tr ++ EvResolve serverAddr :: events.
Proof.
  rewrite SendBindingRequest_run. simpl.
  destruct (resolveUDPAddr w tr serverAddr).
  { by exists []. }
  destruct (writeToUDP w _ serverAddr _).
  { eexists. simpl. by rewrite <- !app_assoc. }
  destruct (readFromUDP w _ _); eexists; simpl; by rewrite <- !app_assoc.
Qed.

End ClientLemmas.

Lemma findMappedAddress_find (attrs : list STUNAttribute) (txID : list Z) :
  findMappedAddress attrs txID
  = match List.find isMappedAddress attrs with
    | Some a => parseAddress (Value a) (bool_decide (Type_ a = XorMappedAddress))
                             txID
    | None => Err ErrMappedAddressNotFound
    end.
Proof.
  induction attrs as [|a attrs IH]; [done|].
  cbn [findMappedAddress List.find]. unfold isMappedAddress at 1.
  destruct (bool_decide (Type_ a = XorMappedAddress)) eqn:Hxor; simpl.
  { by rewrite Hxor. }
  destruct (bool_decide (Type_ a = MappedAddress)); simpl; [|done].
  by rewrite Hxor.
Qed.


(** [parseAddress] fails with its own errors only. *)
Lemma parseAddress_not_stun (data : list Z) (isXor : bool) (txID : list Z)
    (code : Z) (reason : list Z) :
  parseAddress data isXor txID ≠ Err (ErrStunResponse code reason).
Proof.
  unfold parseAddress.
  repeat case_bool_decide; try discriminate; destruct isXor; discriminate.
Qed.

(** A transaction ends with [ErrStunResponse] exactly on a response of type
    Binding Error Response, and then carries the extracted code and reason. *)
Lemma bindingResult_stun_error (response : STUNMessage) (code : Z)
    (reason : list Z) :
  bindingResult response = Err (ErrStunResponse code reason)
  <-> MessageType response = BindingErrorResponse
      ∧ extractErrorCode response = (code, reason).
Proof.
  unfold bindingResult. case_bool_decide as Hty.
  - destruct (extractErrorCode response) as [c r]. split.
    + by intros [= -> ->].
    + by intros [_ [= -> ->]].
  - split; [|by intros [? _]].
    rewrite findMappedAddress_find.
    destruct (List.find _ _) as [a|]; [|discriminate].
    intros H. by apply parseAddress_not_stun in H.
Qed.

(** * Further lemmas on the codec *)

Lemma length_encodeAttributes (attrs : list STUNAttribute) :
  forall (offset : Z) (data : list Z),
    length (encodeAttributes attrs offset data) = length data.
Proof.
  induction attrs as [|a attrs IH]; intros offset data; [done|].
  cbn [encodeAttributes]. rewrite IH. unfold copyInto, PutUint16.
  by rewrite !length_inserts.
Qed.

Lemma attrSectionLen_multiple (attrs : list STUNAttribute) :
  Forall (fun a => isUint16 (Length a)) attrs ->
  ∃ k, 0 <= k ∧ attrSectionLen attrs = 4 * k.
Proof.
  unfold attrSectionLen. intros Hlen.
  assert (Hgen : forall acc, ∃ k, 0 <= k ∧
    foldl (fun attrLen attr => attrLen + (4 + Length attr) + padding (Length attr))
          acc attrs = acc + 4 * k).
  { induction Hlen as [|a attrs Ha _ IH]; intros acc.
    - exists 0. simpl. lia.
    - cbn [foldl].
      destruct (IH (acc + (4 + Length a) + padding (Length a))) as (k & Hk & ->).
      exists (k + (4 + Length a + padding (Length a)) / 4).
      unfold isUint16, padding in *. case_bool_decide; divmod_lia. }
  destruct (Hgen 0) as (k & Hk & ->). exists k. lia.
Qed.

Lemma Uint16_range (b : list Z) : Forall isByte b -> isUint16 (Uint16 b).
Proof.
  intros Hb. unfold Uint16, byteAt, isUint16.
  assert (Hin : forall i, 0 <= default 0 (b !! i) < 256).
  { intros i. destruct (b !! i) as [x|] eqn:Hx; simpl; [|lia].
    by eapply (Forall_lookup_1 _ _ _ _ Hb Hx). }
  pose proof (Hin (Z.to_nat 0)). pose proof (Hin (Z.to_nat 1)). lia.
Qed.

Lemma copyInto_bytes (data src : list Z) (lo hi : Z) :
  Forall isByte data -> Forall isByte src ->
  Forall isByte (copyInto data lo hi src).
Proof.
  intros Hdata Hsrc. unfold copyInto.
  by apply Forall_inserts, Forall_take.
Qed.

Lemma make_bytes (n : Z) : Forall isByte (make n).
Proof. apply Forall_replicate. unfold isByte. lia. Qed.

(** The attributes the loop appends are well typed and well formed. *)
Lemma decodeAttributes_decoded (data : list Z) :
  Forall isByte data ->
  forall (fuel : nat) (offset : Z) (attrs r : list STUNAttribute),
    0 <= offset -> Forall decodedAttribute attrs ->
    decodeAttributes fuel data offset attrs = Some r ->
    Forall decodedAttribute r.
Proof.
  intros Hdata. induction fuel as [|fuel IH]; intros offset attrs r Hoff Hacc;
    [done|].
  simpl. case_bool_decide; [|by intros [= <-]].
  case_bool_decide; [by intros [= <-]|].
  case_bool_decide; [by intros [= <-]|].
  set (attrLength := Uint16 (slice data (offset + 2) (offset + 4))) in *.
  assert (Hlen : isUint16 attrLength)
    by (apply Uint16_range, Forall_slice, Hdata).
  pose proof (padding_range attrLength).
  apply IH; [unfold isUint16 in Hlen; lia|].
  apply Forall_app_2; [done|]. constructor; [|done].
  unfold decodedAttribute. simpl.
  assert (Hslice : len (slice data (offset + 4) (offset + 4 + attrLength))
                   = attrLength).
  { unfold isUint16 in Hlen. rewrite length_slice; lia. }
  rewrite copyInto_make by done.
  split_and!; [apply Uint16_range, Forall_slice, Hdata|done
               |apply Forall_slice, Hdata|done].
Qed.

Lemma decodeMessage_decoded (data : list Z) (m : STUNMessage) :
  Forall isByte data -> decodeMessage data = Ok m ->
  wellTyped m ∧ wellFormed m.
Proof.
  intros Hdata. unfold decodeMessage. case_bool_decide; [done|].
  intros [= <-]. unfold wellTyped, wellFormed. simpl.
  assert (Hattrs : Forall decodedAttribute
            (default [] (decodeAttributes (length data) data 20 []))).
  { destruct (decodeAttributes _ _ _ _) as [r|] eqn:Hr; simpl; [|done].
    by eapply (decodeAttributes_decoded data Hdata _ 20 [] r). }
  split_and!.
  - apply Uint16_range, Forall_slice, Hdata.
  - unfold copyInto, make. by rewrite length_inserts, length_replicate.
  - apply copyInto_bytes; [apply make_bytes|apply Forall_slice, Hdata].
  - eapply Forall_impl; [exact Hattrs|]. intros a (? & ? & ? & ?). done.
  - eapply Forall_impl; [exact Hattrs|]. by intros a (? & ? & ? & ?).
Qed.

(** Decoding what the encoder wrote gives the message back. *)
Lemma decodeMessage_encodeMessage (m : STUNMessage) :
  wellTyped m -> wellFormed m -> decodeMessage (encodeMessage m) = Ok m.
Proof.
  intros (Hty & Htid & _ & Hattrs) Hwf.
  rewrite encodeMessage_wire by done.
  set (hdr := wireHeader m _).
  assert (Hhdr : length hdr = 20%nat).
  { subst hdr. unfold wireHeader. rewrite length_app, Htid. reflexivity. }
  assert (Hall : Forall (fun a => isUint16 (Type_ a) ∧ isUint16 (Length a)
                                  ∧ Length a = len (Value a)) (Attributes m)).
  { unfold wellFormed in Hwf. rewrite Forall_forall in *.
    intros a Ha. destruct (Hattrs a Ha) as (? & ? & _). auto. }
  destruct (decodeMessage_wire hdr (Attributes m) [] Hhdr Hall) as [_ Hdec].
  { left. unfold len. simpl. lia. }
  rewrite app_nil_r in Hdec. rewrite Hdec. destruct m as [ty tid attrs].
  simpl in *. f_equal. f_equal.
  - subst hdr. unfold wireHeader, slice. simpl. by apply Uint16_bytes.
  - subst hdr. unfold wireHeader, slice.
    change (Z.to_nat (20 - 8)) with 12%nat. change (Z.to_nat 8) with 8%nat.
    cbn [app drop]. apply take_ge. simpl. lia.
Qed.

Lemma length_wireAttributesWith (attrs : list STUNAttribute) :
  forall pads, paddedAttributes attrs pads ->
               (length attrs <= length (wireAttributesWith attrs pads))%nat.
Proof.
  induction attrs as [|a attrs IH]; intros pads Hpads; [simpl; lia|].
  destruct pads as [|pad pads]; [done|].
  destruct Hpads as (_ & _ & _ & _ & Hrest). specialize (IH pads Hrest).
  simpl. rewrite !length_app. simpl. lia.
Qed.

(** The loop reads attributes back whatever their padding bytes are. *)
Lemma decodeAttributes_padded (attrs : list STUNAttribute) :
  forall (pads : list (list Z)), paddedAttributes attrs pads ->
  forall (pre tail : list Z) (acc : list STUNAttribute) (fuel : nat),
    truncatedAttribute tail -> (length attrs < fuel)%nat ->
    decodeAttributes fuel (pre ++ wireAttributesWith attrs pads ++ tail)
                     (len pre) acc
    = Some (acc ++ attrs).
Proof.
  induction attrs as [|a attrs IH]; intros pads Hpads pre tail acc fuel Htail Hfuel;
    (destruct fuel as [|fuel]; [simpl in Hfuel; lia|]).
  - cbn [wireAttributesWith app decodeAttributes]. rewrite app_nil_r, len_app.
    replace (len pre + 2) with (len pre + (0 + 2)) by lia.
    replace (len pre + 4) with (len pre + (0 + 4)) by lia.
    rewrite slice_app_shift by lia. rewrite !Z.add_0_l.
    pose proof (len_nonneg tail). unfold truncatedAttribute in Htail.
    repeat case_bool_decide; try done; lia.
  - destruct pads as [|pad pads]; [done|].
    destruct Hpads as (Hty & Hlen & Hval & Hpad & Hrest).
    cbn [wireAttributesWith decodeAttributes].
    set (rest := wireAttributesWith attrs pads ++ tail).
    rewrite <- (app_assoc (wireAttributeWith a pad)). fold rest.
    rewrite !len_app.
    pose proof (len_nonneg rest). pose proof (len_nonneg (Value a)).
    pose proof (padding_range (Length a)) as Hpadr.
    assert (Hwire : len (wireAttributeWith a pad)
                    = 4 + Length a + padding (Length a)).
    { unfold wireAttributeWith. rewrite !len_app. unfold len in *. simpl. lia. }
    replace (len pre + 2) with (len pre + (0 + 2)) by lia.
    replace (len pre + 4) with (len pre + (0 + 4)) by lia.
    rewrite slice_app_shift0, !slice_app_shift by lia.
    assert (Hu1 : Uint16 (slice (wireAttributeWith a pad ++ rest) 0 (0 + 2))
                  = Type_ a).
    { unfold wireAttributeWith, slice. simpl. by apply Uint16_bytes. }
    assert (Hu2 : Uint16 (slice (wireAttributeWith a pad ++ rest) (0 + 2) (0 + 4))
                  = Length a).
    { unfold wireAttributeWith, slice. simpl. by apply Uint16_bytes. }
    rewrite Hu1, Hu2.
    replace (len pre + (0 + 4) + Length a)
      with (len pre + (0 + 4 + Length a)) by lia.
    rewrite slice_app_shift by lia.
    assert (Hv : slice (wireAttributeWith a pad ++ rest) (0 + 4) (0 + 4 + Length a)
                 = Value a).
    { unfold wireAttributeWith, slice. simpl.
      replace (Z.to_nat (0 + 4 + Length a - (0 + 4))) with (length (Value a))
        by (unfold len in *; lia).
      rewrite <- !app_assoc, drop_0. apply take_app_length. }
    rewrite Hv, copyInto_make by done.
    rewrite !bool_decide_eq_true_2 by lia.
    rewrite !bool_decide_eq_false_2 by lia.
    replace (len pre + (4 + Length a) + padding (Length a))
      with (len (pre ++ wireAttributeWith a pad)) by (rewrite len_app; lia).
    rewrite (app_assoc pre). subst rest.
    rewrite (IH pads Hrest) by (done || simpl in Hfuel; lia).
    destruct a. by rewrite <- app_assoc.
Qed.

(** * Further lemmas on addresses and error codes *)

Lemma lxor_byte (a b : Z) : isByte a -> isByte b -> isByte (Z.lxor a b).
Proof.
  unfold isByte. intros Ha Hb.
  assert (Hnn : 0 <= Z.lxor a b) by (apply Z.lxor_nonneg; lia).
  split; [done|].
  destruct (decide (Z.lxor a b = 0)) as [->|Hne]; [lia|].
  change 256 with (2 ^ 8). apply Z.log2_lt_pow2; [lia|].
  pose proof (Z.log2_lxor a b ltac:(lia) ltac:(lia)).
  assert (Z.log2 a < 8).
  { destruct (decide (a = 0)) as [->|]; [done|]. apply Z.log2_lt_pow2; lia. }
  assert (Z.log2 b < 8).
  { destruct (decide (b = 0)) as [->|]; [done|]. apply Z.log2_lt_pow2; lia. }
  lia.
Qed.

Lemma lookup_default_byte (l : list Z) (i : nat) :
  Forall isByte l -> isByte (default 0 (l !! i)).
Proof.
  intros Hl. destruct (l !! i) as [x|] eqn:Hx; simpl.
  - by eapply (Forall_lookup_1 _ _ _ _ Hl Hx).
  - unfold isByte. lia.
Qed.

Lemma xorLoop_bytes (n : nat) (ip key : list Z) :
  Forall isByte ip -> Forall isByte key -> Forall isByte (xorLoop n ip key).
Proof.
  unfold xorLoop. intros Hip Hkey. revert ip Hip.
  induction (seq 0 n) as [|i l IH]; intros ip Hip; [done|].
  cbn [foldl]. apply IH, Forall_insert; [done|].
  by apply lxor_byte; apply lookup_default_byte.
Qed.

Lemma length_xorLoop (n : nat) (ip key : list Z) :
  length (xorLoop n ip key) = length ip.
Proof.
  unfold xorLoop. revert ip.
  induction (seq 0 n) as [|i l IH]; intros ip; [done|].
  cbn [foldl]. by rewrite IH, length_insert.
Qed.

Lemma length_copyInto (data src : list Z) (lo hi : Z) :
  length (copyInto data lo hi src) = length data.
Proof. unfold copyInto. apply length_inserts. Qed.

Lemma land_7 (x : Z) : Z.land x 7 = x mod 8.
Proof. change 7 with (Z.ones 3). by rewrite Z.land_ones. Qed.

(** * Further lemmas on the classifiers *)

Section ClassifierLemmas.

Variable w : World.

(** The loop over the two ports. *)
Lemma tryPorts_run {A} (probe : string -> M (errorOr A)) (serverAddr : string)
    (tr : Trace) :
  tryPorts probe serverAddr firstPort otherPorts tr
  = match probe (serverAddr +:+ ":3478") tr with
    | (Ok a, tr1) => ((serverAddr +:+ ":3478", Ok a), tr1)
    | (Err _, tr1) =>
        ((serverAddr +:+ ":19302", fst (probe (serverAddr +:+ ":19302") tr1)),
         snd (probe (serverAddr +:+ ":19302") tr1))
    end.
Proof.
  unfold firstPort, otherPorts. cbn [tryPorts]. unfold bind, ret.
  destruct (probe (serverAddr +:+ ":3478") tr) as [[a|e] tr1]; [done|].
  by destruct (probe (serverAddr +:+ ":19302") tr1) as [[a|e'] tr2].
Qed.

Lemma SendBindingRequest_events (serverAddr : string)
    (changeIP changePort : bool) (tr : Trace) :
  ∃ events, snd (SendBindingRequest w serverAddr changeIP changePort tr)
            = tr ++ events
            ∧ Forall isTransactionEvent events.
Proof.
  rewrite SendBindingRequest_run. simpl.
  destruct (resolveUDPAddr w tr serverAddr).
  { eexists. split; [done|]. by repeat constructor. }
  destruct (writeToUDP w _ serverAddr _).
  { eexists. simpl. rewrite <- !app_assoc. split; [done|].
    by repeat constructor. }
  destruct (readFromUDP w _ _); eexists; simpl; rewrite <- !app_assoc;
    (split; [done|by repeat constructor]).
Qed.

Lemma GetAlternateAddress_events (serverAddr : string) (tr : Trace) :
  ∃ events, snd (GetAlternateAddress w serverAddr tr) = tr ++ events
            ∧ Forall isTransactionEvent events.
Proof.
  rewrite GetAlternateAddress_run. simpl.
  destruct (resolveUDPAddr w tr serverAddr).
  { eexists. split; [done|]. by repeat constructor. }
  destruct (writeToUDP w _ serverAddr _).
  { eexists. simpl. rewrite <- !app_assoc. split; [done|].
    by repeat constructor. }
  destruct (readFromUDP w _ _); eexists; simpl; rewrite <- !app_assoc;
    (split; [done|by repeat constructor]).
Qed.

Lemma tryPorts_events {A} (probe : string -> M (errorOr A)) :
  (∀ s tr, ∃ events, snd (probe s tr) = tr ++ events
                     ∧ Forall isTransactionEvent events) ->
  ∀ serverAddr tr,
    ∃ events, snd (tryPorts probe serverAddr firstPort otherPorts tr)
              = tr ++ events
              ∧ Forall isTransactionEvent events.
Proof.
  intros Hprobe serverAddr tr. rewrite tryPorts_run.
  destruct (Hprobe (serverAddr +:+ ":3478") tr) as (ev1 & Htr1 & Hev1).
  destruct (probe (serverAddr +:+ ":3478") tr) as [[a|e] tr1]; simpl in *.
  { by exists ev1. }
  destruct (Hprobe (serverAddr +:+ ":19302") tr1) as (ev2 & Htr2 & Hev2).
  exists (ev1 ++ ev2). rewrite Htr2, Htr1, app_assoc.
  split; [done|by apply Forall_app_2].
Qed.

(** What a successful [CheckMappingType] returns. *)
Lemma CheckMappingType_Ok (serverIpA serverIpB : string) (tr tr' : Trace)
    (res : CheckMappingResult) :
  CheckMappingType w serverIpA serverIpB tr = (Ok res, tr') ->
  NATType res
  = determineNATType (MappingA1 (MappingResponse res))
                     (MappingB1 (MappingResponse res))
                     (MappingA2 (MappingResponse res)).
Proof.
  unfold CheckMappingType, deferClose, bind, ret, Close.
  destruct (NewSTUNClient w tr) as [[[]|e] tr0]; [|discriminate].
  destruct (tryPorts _ serverIpA _ _ tr0) as [[s1 [a1|e1]] tr1];
    [|discriminate].
  cbn [snd].
  destruct (tryPorts _ serverIpB _ _ tr1) as [[s2 [b1|e2]] tr2];
    [|discriminate].
  cbn [snd].
  destruct (tryPorts _ serverIpA _ _ tr2) as [[s3 [a2|e3]] tr3];
    [|discriminate].
  cbn [snd]. by intros [= <- _].
Qed.

End ClassifierLemmas.

(** * The encoder on attributes whose length field and value disagree *)

Lemma length_normalized_value (a : STUNAttribute) :
  length (Value (normalizeAttribute a)) = Z.to_nat (Length a).
Proof.
  unfold normalizeAttribute. simpl.
  rewrite length_app, length_take, length_replicate. lia.
Qed.

Lemma encodeAttributes_normalized (attrs : list STUNAttribute) :
  Forall (fun a => isUint16 (Length a)) attrs ->
  forall (pre : list Z) (k : nat),
    encodeAttributes attrs (len pre)
      (pre ++ replicate
                (length (concat (map wireAttribute (map normalizeAttribute attrs)))
                 + k) 0)
    = pre ++ concat (map wireAttribute (map normalizeAttribute attrs))
          ++ replicate k 0.
Proof.
  induction 1 as [|a attrs Ha _ IH]; intros pre k; [done|].
  cbn [encodeAttributes concat map].
  rewrite length_app, length_wireAttribute, length_normalized_value.
  change (Length (normalizeAttribute a)) with (Length a).
  pose proof (padding_range (Length a)) as Hpad.
  set (rest := length (concat (map wireAttribute (map normalizeAttribute attrs)))).
  set (src := take (Z.to_nat (Length a)) (Value a)).
  assert (Hsrc : (length src <= Z.to_nat (Length a))%nat)
    by (subst src; rewrite length_take; lia).
  replace (4 + Z.to_nat (Length a) + Z.to_nat (padding (Length a)) + rest + k)%nat
    with (2 + (2 + (length src
                    + ((Z.to_nat (Length a) - length src)
                       + (Z.to_nat (padding (Length a)) + (rest + k))))))%nat
    by lia.
  rewrite !(replicate_add _ _ 0).
  unfold PutUint16 at 2.
  rewrite list_inserts_window by (unfold len; simpl; lia).
  unfold PutUint16.
  rewrite (app_assoc pre [_; _]).
  rewrite list_inserts_window
    by (unfold len; rewrite ?length_app; simpl; lia).
  unfold copyInto.
  replace (Z.to_nat (len pre + 4 + Length a - (len pre + 4)))
    with (Z.to_nat (Length a)) by lia.
  fold src.
  rewrite (app_assoc _ [_; _]).
  rewrite list_inserts_window
    by (unfold len; rewrite ?length_app, ?length_replicate; simpl; lia).
  unfold isUint16 in Ha.
  replace (len pre + (4 + Length a) + padding (Length a))
    with (len (pre ++ wireAttribute (normalizeAttribute a))).
  2:{ unfold len. rewrite length_app, length_wireAttribute,
        length_normalized_value.
      change (Length (normalizeAttribute a)) with (Length a). lia. }
  match goal with
  | |- encodeAttributes _ _ ?buf = _ =>
      replace buf
        with ((pre ++ wireAttribute (normalizeAttribute a))
              ++ replicate (rest + k) 0)
  end.
  2:{ unfold wireAttribute, normalizeAttribute. simpl. fold src.
      replace (Z.to_nat (Length a) - length (Value a))%nat
        with (Z.to_nat (Length a) - length src)%nat
        by (subst src; rewrite length_take; lia).
      rewrite (replicate_add _ _ 0). rewrite <- !app_assoc. simpl.
      by rewrite <- !app_assoc. }
  rewrite IH. by rewrite <- !app_assoc.
Qed.

Lemma attrSectionLen_normalized (attrs : list STUNAttribute) :
  attrSectionLen (map normalizeAttribute attrs) = attrSectionLen attrs.
Proof.
  unfold attrSectionLen. generalize 0.
  induction attrs as [|a attrs IH]; intros acc; [done|].
  cbn [map foldl]. by rewrite IH.
Qed.

Lemma normalizeMessage_wellFormed (m : STUNMessage) :
  Forall (fun a => isUint16 (Length a)) (Attributes m) ->
  wellFormed (normalizeMessage m).
Proof.
  unfold wellFormed, normalizeMessage. simpl. intros Hlen.
  apply Forall_map. eapply Forall_impl; [exact Hlen|].
  intros a Ha. cbv beta. unfold len. rewrite length_normalized_value.
  change (Length (normalizeAttribute a)) with (Length a).
  unfold isUint16 in Ha. lia.
Qed.

Lemma encodeMessage_normalizeMessage (m : STUNMessage) :
  length (TransactionID m) = 12%nat ->
  Forall (fun a => isUint16 (Length a)) (Attributes m) ->
  encodeMessage m = encodeMessage (normalizeMessage m).
Proof.
  intros Htid Hlen.
  rewrite (encodeMessage_wire (normalizeMessage m))
    by (done || by apply normalizeMessage_wellFormed).
  unfold encodeMessage, wireHeader. cbn [normalizeMessage Attributes
    MessageType TransactionID].
  rewrite attrSectionLen_normalized.
  rewrite <- (attrSectionLen_normalized (Attributes m)) at 1.
  rewrite (attrSectionLen_wire (map normalizeAttribute (Attributes m)))
    by (apply (normalizeMessage_wellFormed m Hlen)).
  set (n := attrSectionLen (Attributes m) mod 65536).
  set (body := concat (map wireAttribute (map normalizeAttribute (Attributes m)))).
  destruct m as [ty tid attrs]; simpl in *.
  do 13 (destruct tid as [|? tid]; try discriminate). clear Htid.
  unfold make, len.
  replace (Z.to_nat (20 + Z.of_nat (length body)))
    with (20 + (length body + 0))%nat by lia.
  rewrite (replicate_add _ _ 0).
  set (hdr := [(ty / 256) mod 256; ty mod 256; (n / 256) mod 256; n mod 256;
               0x21; 0x12; 0xA4; 0x42; z; z0; z1; z2; z3; z4; z5; z6; z7; z8;
               z9; z10]).
  transitivity (encodeAttributes attrs (len hdr)
                  (hdr ++ replicate (length body + 0) 0)); [reflexivity|].
  subst body. rewrite encodeAttributes_normalized by done.
  by rewrite app_nil_r.
Qed.

(** * Properties *)

(** ** Mapping classification and the legacy names *)

(** C1. The mapping verdict is decided by the three ports alone: a change of
    port between the two answers of server A gives [AddressPortDependent];
    otherwise equal ports at A and B give [EndpointIndependent], and different
    ports give [AddressDependent].  The IP addresses play no part. *)
Theorem determineNATType_ports (ipA1 ipB1 ipA2 ipA1' ipB1' ipA2' : list Z)
    (pA1 pB1 pA2 : Z) :
  determineNATType {| IP := ipA1; Port := pA1 |} {| IP := ipB1; Port := pB1 |}
                   {| IP := ipA2; Port := pA2 |}
  = (if decide (pA1 ≠ pA2) then AddressPortDependent
     else if decide (pA1 = pB1) then EndpointIndependent
     else AddressDependent)
  ∧ determineNATType {| IP := ipA1; Port := pA1 |} {| IP := ipB1; Port := pB1 |}
                     {| IP := ipA2; Port := pA2 |}
    = determineNATType {| IP := ipA1'; Port := pA1 |}
                       {| IP := ipB1'; Port := pB1 |}
                       {| IP := ipA2'; Port := pA2 |}.
Proof.
  split; [|reflexivity].
  unfold determineNATType; simpl.
  repeat case_bool_decide; repeat case_decide; congruence.
Qed.

(** C8. [LegacyName] agrees with the table on every pair of a mapping and a
    filtering behaviour; in particular endpoint-independent mapping with
    unknown filtering is "Unknown NAT Type". *)
Theorem LegacyName_table (m : NATMappingType) (f : NATFilteringType) :
  LegacyName {| Mapping := m; Filtering := f |} = legacyTable m f
  ∧ LegacyName {| Mapping := EndpointIndependent; Filtering := FilteringUnknown |}
    = "Unknown NAT Type"%string.
Proof. split; [destruct m, f|]; reflexivity. Qed.

(** ** The wire codec *)

(** C5. Encoding a well-formed message and decoding the bytes succeeds: the
    attribute loop ends within its counter, and the decoded message has the
    message type, the transaction identifier and the attribute triples of the
    encoded one. *)
Theorem encode_decode_roundtrip (m : STUNMessage) :
  wellTyped m -> wellFormed m ->
  decodeAttributes (length (encodeMessage m)) (encodeMessage m) 20 []
  = Some (Attributes m)
  ∧ ∃ m', decodeMessage (encodeMessage m) = Ok m'
          ∧ MessageType m' = MessageType m
          ∧ TransactionID m' = TransactionID m
          ∧ map triple (Attributes m') = map triple (Attributes m).
Proof.
  intros (Hty & Htid & _ & Hattrs) Hwf.
  rewrite encodeMessage_wire by done.
  set (hdr := wireHeader m _).
  assert (Hhdr : length hdr = 20%nat).
  { subst hdr. unfold wireHeader. rewrite length_app, Htid. reflexivity. }
  assert (Hall : Forall (fun a => isUint16 (Type_ a) ∧ isUint16 (Length a)
                                  ∧ Length a = len (Value a)) (Attributes m)).
  { unfold wellFormed in Hwf. rewrite Forall_forall in *.
    intros a Ha. destruct (Hattrs a Ha) as (? & ? & _). auto. }
  destruct (decodeMessage_wire hdr (Attributes m) [] Hhdr Hall) as [Hloop Hdec].
  { left. unfold len. simpl. lia. }
  rewrite app_nil_r in Hloop, Hdec. split; [done|].
  eexists. split; [exact Hdec|]. simpl. split_and!; [| |done].
  - subst hdr. unfold wireHeader, slice. simpl. by apply Uint16_bytes.
  - subst hdr. unfold wireHeader, slice.
    change (Z.to_nat (20 - 8)) with 12%nat. change (Z.to_nat 8) with 8%nat.
    cbn [app drop]. apply take_ge. lia.
Qed.

Lemma encode_decode_roundtrip_witness :
  wellTyped changeRequestMessage ∧ wellFormed changeRequestMessage
  ∧ ∃ m', decodeMessage (encodeMessage changeRequestMessage) = Ok m'
          ∧ MessageType m' = MessageType changeRequestMessage
          ∧ TransactionID m' = TransactionID changeRequestMessage
          ∧ map triple (Attributes m')
            = map triple (Attributes changeRequestMessage).
Proof.
  assert (Hty : wellTyped changeRequestMessage).
  { unfold wellTyped, wellTypedAttribute, isUint16, isByte. compute_done. }
  assert (Hwf : wellFormed changeRequestMessage).
  { unfold wellFormed. compute_done. }
  split_and!; [done..|].
  apply (encode_decode_roundtrip changeRequestMessage Hty Hwf).
Defined.

(** C9. [decodeMessage] fails on inputs shorter than 20 bytes and on no other
    input.  On 20 bytes or more the attribute loop ends and a message is
    returned, whose type and transaction identifier are bytes 0..2 and 8..20;
    bytes 2..8 (the length field and the magic cookie) have no influence; and
    a truncated attribute after well-formed ones is dropped with everything
    that follows it. *)
Theorem decodeMessage_fails_only_when_short :
  (∀ data : list Z, len data < 20 -> decodeMessage data = Err ErrMessageTooShort)
  ∧ (∀ data : list Z, Forall isByte data -> 20 <= len data ->
       ∃ attrs, decodeAttributes (length data) data 20 [] = Some attrs
                ∧ decodeMessage data
                  = Ok {| MessageType := Uint16 (slice data 0 2);
                          TransactionID := slice data 8 20;
                          Attributes := attrs |})
  ∧ (∀ ty field field' rest : list Z,
       length ty = 2%nat -> length field = 6%nat -> length field' = 6%nat ->
       Forall isByte rest ->
       decodeMessage (ty ++ field ++ rest) = decodeMessage (ty ++ field' ++ rest))
  ∧ (∀ (hdr : list Z) (attrs : list STUNAttribute) (tail : list Z),
       length hdr = 20%nat ->
       Forall wellTypedAttribute attrs ->
       Forall (fun a => Length a = len (Value a)) attrs ->
       truncatedAttribute tail ->
       decodeMessage (hdr ++ concat (map wireAttribute attrs) ++ tail)
       = Ok {| MessageType := Uint16 (slice hdr 0 2);
               TransactionID := slice hdr 8 20;
               Attributes := attrs |}
       ∧ decodeMessage (hdr ++ concat (map wireAttribute attrs) ++ tail)
         = decodeMessage (hdr ++ concat (map wireAttribute attrs))).
Proof.
  split_and!.
  - intros data Hshort. unfold decodeMessage.
    by rewrite bool_decide_eq_true_2.
  - intros data Hbytes Hlong.
    destruct (decodeAttributes_terminates data (isByte_nonneg _ Hbytes)
                (length data) 20 []) as [attrs Hattrs];
      [unfold len in *; lia..|].
    exists attrs. split; [done|]. unfold decodeMessage.
    rewrite bool_decide_eq_false_2 by lia. rewrite Hattrs.
    rewrite copyInto_make; [done|]. rewrite length_slice; lia.
  - intros ty field field' rest Hty Hfield Hfield' Hrest.
    apply isByte_nonneg in Hrest.
    rewrite !app_assoc.
    rewrite !decodeMessage_prefix8 by (done || rewrite length_app; lia).
    do 3 (destruct ty as [|? ty]; try discriminate). reflexivity.
  - intros hdr attrs tail Hhdr Hty Hwf Htail.
    assert (Hall : Forall (fun a => isUint16 (Type_ a) ∧ isUint16 (Length a)
                                    ∧ Length a = len (Value a)) attrs).
    { rewrite Forall_forall in *. intros a Ha.
      destruct (Hty a Ha) as (? & ? & _). auto. }
    destruct (decodeMessage_wire hdr attrs tail Hhdr Hall Htail) as [_ ->].
    destruct (decodeMessage_wire hdr attrs [] Hhdr Hall) as [_ Hnil].
    { left. unfold len. simpl. lia. }
    rewrite app_nil_r in Hnil. by rewrite Hnil.
Qed.

Lemma decodeMessage_fails_only_when_short_witness :
  decodeMessage [0x01; 0x01; 0x00; 0x00] = Err ErrMessageTooShort
  ∧ (∃ attrs, decodeAttributes (length successHeader) successHeader 20 []
              = Some attrs
              ∧ decodeMessage successHeader
                = Ok {| MessageType := Uint16 (slice successHeader 0 2);
                        TransactionID := slice successHeader 8 20;
                        Attributes := attrs |})
  ∧ decodeMessage ([0x01; 0x01] ++ [0x00; 0x00; 0x21; 0x12; 0xA4; 0x42]
                   ++ sampleTxID)
    = decodeMessage ([0x01; 0x01] ++ [0xFF; 0xFF; 0x00; 0x00; 0x00; 0x00]
                     ++ sampleTxID)
  ∧ decodeMessage (successHeader
                   ++ concat (map wireAttribute [plainMapped]) ++ truncatedTail)
    = Ok {| MessageType := BindingResponse;
            TransactionID := sampleTxID;
            Attributes := [plainMapped] |}.
Proof.
  destruct decodeMessage_fails_only_when_short as (H1 & H2 & H3 & H4).
  split_and!.
  - apply H1. unfold len. simpl. lia.
  - apply H2; [unfold isByte; compute_done|unfold len; simpl; lia].
  - apply H3; [done..|unfold isByte; compute_done].
  - apply H4; [done|unfold wellTypedAttribute, isUint16, isByte; compute_done
               |compute_done|].
    right. unfold len, Uint16, slice, byteAt. simpl. lia.
Defined.

(** Scenarios 1 and 2 and the CHANGE-REQUEST golden of the specification. *)
Example encode_plain_request :
  encodeMessage {| MessageType := BindingRequest; TransactionID := sampleTxID;
                   Attributes := [] |}
  = [0x00; 0x01; 0x00; 0x00; 0x21; 0x12; 0xA4; 0x42] ++ sampleTxID.
Proof. reflexivity. Qed.

Example encode_change_request :
  encodeMessage (bindingRequestMessage sampleTxID true true)
  = [0x00; 0x01; 0x00; 0x08; 0x21; 0x12; 0xA4; 0x42] ++ sampleTxID
    ++ [0x00; 0x03; 0x00; 0x04; 0x00; 0x00; 0x00; 0x06].
Proof. reflexivity. Qed.

Example decode_success_response :
  decodeMessage successHeader
  = Ok {| MessageType := BindingResponse; TransactionID := sampleTxID;
          Attributes := [] |}.
Proof. reflexivity. Qed.

(** ** Reflexive addresses and error codes *)

Lemma lxor_uint16 (a b : Z) : isUint16 a -> isUint16 b -> isUint16 (Z.lxor a b).
Proof.
  unfold isUint16. intros Ha Hb.
  assert (Hnn : 0 <= Z.lxor a b) by (apply Z.lxor_nonneg; lia).
  split; [done|].
  destruct (decide (Z.lxor a b = 0)) as [->|Hne]; [lia|].
  change 65536 with (2 ^ 16). apply Z.log2_lt_pow2; [lia|].
  pose proof (Z.log2_lxor a b ltac:(lia) ltac:(lia)).
  assert (Z.log2 a < 16).
  { destruct (decide (a = 0)) as [->|]; [done|]. apply Z.log2_lt_pow2; lia. }
  assert (Z.log2 b < 16).
  { destruct (decide (b = 0)) as [->|]; [done|]. apply Z.log2_lt_pow2; lia. }
  lia.
Qed.

Lemma lxor_cancel (a c : Z) : Z.lxor (Z.lxor a c) c = a.
Proof. by rewrite Z.lxor_assoc, Z.lxor_nilpotent, Z.lxor_0_r. Qed.

(** C6. Parsing in XOR mode the payload obtained by XOR-obfuscating an IPv4
    address and a 16-bit port gives the address and the port back, whatever
    the transaction identifier. *)
Theorem parseAddress_xor_ipv4 (ip0 ip1 ip2 ip3 port : Z) (txID : list Z) :
  isUint16 port ->
  parseAddress (xorObfuscateIPv4 ip0 ip1 ip2 ip3 port) true txID
  = Ok {| IP := [ip0; ip1; ip2; ip3]; Port := port |}.
Proof.
  intros Hport.
  pose proof (lxor_uint16 port 0x2112 Hport ltac:(unfold isUint16; lia)) as Hx.
  unfold parseAddress, xorObfuscateIPv4.
  simpl. f_equal. f_equal.
  - change (cookieByte 0) with 0x21. change (cookieByte 1) with 0x12.
    change (cookieByte 2) with 0xA4. change (cookieByte 3) with 0x42.
    transitivity [Z.lxor (Z.lxor ip0 0x21) 0x21; Z.lxor (Z.lxor ip1 0x12) 0x12;
                  Z.lxor (Z.lxor ip2 0xA4) 0xA4; Z.lxor (Z.lxor ip3 0x42) 0x42];
      [reflexivity|].
    by rewrite !lxor_cancel.
  - transitivity (Z.lxor (Z.lxor port 0x2112) 0x2112); [|apply lxor_cancel].
    f_equal. unfold slice. simpl. by apply Uint16_bytes.
Qed.

Lemma parseAddress_xor_ipv4_witness :
  isUint16 54321
  ∧ parseAddress (xorObfuscateIPv4 203 0 113 1 54321) true
                 [1; 2; 3; 4; 5; 6; 7; 8; 9; 10; 11; 12]
    = Ok {| IP := [203; 0; 113; 1]; Port := 54321 |}.
Proof.
  assert (H : isUint16 54321) by (unfold isUint16; lia).
  split; [exact H|]. exact (parseAddress_xor_ipv4 203 0 113 1 54321 _ H).
Defined.

Lemma extractErrorCodeFrom_find (attrs : list STUNAttribute) :
  extractErrorCodeFrom attrs
  = match List.find isLongErrorCode attrs with
    | Some a => errorOfValue (Value a)
    | None => (0, [])
    end.
Proof.
  induction attrs as [|a attrs IH]; [done|].
  cbn [extractErrorCodeFrom List.find]. unfold isLongErrorCode at 1.
  destruct (bool_decide (Type_ a = ErrorCode)); simpl; [|done].
  repeat case_bool_decide; try lia; try done.
  unfold errorOfValue, sliceFrom. f_equal.
  symmetry. apply drop_ge. unfold len in *. lia.
Qed.

(** C4, as the code has it. [extractErrorCode] decodes the first ERROR-CODE
    attribute whose value has at least 4 bytes: the code is 100 times the low
    3 bits of byte 2 plus byte 3, the reason the bytes from index 4 on.  It
    answers [(0, "")] when there is no such attribute.  When the first
    ERROR-CODE attribute has 4 bytes or more, it is the one decoded. *)
Theorem extractErrorCode_first_long (msg : STUNMessage) :
  extractErrorCode msg
  = match List.find isLongErrorCode (Attributes msg) with
    | Some a => (Z.land (byteAt (Value a) 2) 0x07 * 100 + byteAt (Value a) 3,
                 sliceFrom (Value a) 4)
    | None => (0, [])
    end
  ∧ (List.find isErrorCode (Attributes msg) = None ->
     extractErrorCode msg = (0, []))
  ∧ (∀ a, List.find isErrorCode (Attributes msg) = Some a ->
          4 <= len (Value a) ->
          extractErrorCode msg = errorOfValue (Value a)).
Proof.
  unfold extractErrorCode. rewrite extractErrorCodeFrom_find.
  split_and!; [done| |].
  - intros Hnone. destruct (List.find isLongErrorCode _) as [a|] eqn:Hfind; [|done].
    apply find_some in Hfind as [Hin Ha].
    pose proof (find_none _ _ Hnone a Hin) as Hno.
    unfold isLongErrorCode, isErrorCode in *.
    destruct (bool_decide (Type_ a = ErrorCode)); done.
  - intros a Hfind Hlen. induction (Attributes msg) as [|b attrs IH]; [done|].
    cbn [List.find] in *. unfold isLongErrorCode at 1. unfold isErrorCode in Hfind at 1.
    destruct (bool_decide (Type_ b = ErrorCode)); simpl; [|by apply IH].
    injection Hfind as ->. by rewrite bool_decide_eq_true_2.
Qed.

Lemma extractErrorCode_first_long_witness :
  List.find isErrorCode (Attributes error420)
  = Some {| Type_ := ErrorCode; Length := 21;
            Value := [0; 0; 4; 20] ++ unknownAttributeText |}
  ∧ extractErrorCode error420 = (420, unknownAttributeText).
Proof.
  split; [reflexivity|].
  destruct (extractErrorCode_first_long error420) as (_ & _ & H).
  apply (H _ eq_refl). unfold len. simpl. lia.
Defined.

(** C4, as stated, fails: when the first ERROR-CODE attribute is shorter than
    4 bytes the scan goes on, and a later ERROR-CODE attribute is decoded. *)
Lemma extractErrorCode_skips_short :
  List.find isErrorCode (Attributes twoErrorCodes)
  = Some {| Type_ := ErrorCode; Length := 2; Value := [0; 0] |}
  ∧ extractFirstErrorCode twoErrorCodes = (0, [])
  ∧ extractErrorCode twoErrorCodes = (420, [])
  ∧ extractErrorCode twoErrorCodes ≠ extractFirstErrorCode twoErrorCodes.
Proof. split_and!; try reflexivity. discriminate. Qed.

(** ** The transactions *)

(** C2, as the code has it. On a Binding Success Response,
    [SendBindingRequest] returns the address parsed from the first attribute,
    in the order of the message, that is an XOR-MAPPED-ADDRESS or a
    MAPPED-ADDRESS: in XOR mode for the former, in plain mode for the latter.
    It fails when the response has neither. *)
Theorem SendBindingRequest_first_mapped (w : World) (serverAddr : string)
    (changeIP changePort : bool) (tr : Trace) (datagram : list Z)
    (response : STUNMessage) :
  answered w tr serverAddr
           (fun txID => bindingRequestMessage txID changeIP changePort)
           (readDeadline changeIP changePort) datagram ->
  decodeMessage (take 1024 datagram) = Ok response ->
  MessageType response = BindingResponse ->
  fst (SendBindingRequest w serverAddr changeIP changePort tr)
  = match List.find isMappedAddress (Attributes response) with
    | Some a => parseAddress (Value a)
                             (bool_decide (Type_ a = XorMappedAddress))
                             (TransactionID response)
    | None => Err ErrMappedAddressNotFound
    end.
Proof.
  intros Hans Hdec Hty. rewrite (SendBindingRequest_answered _ _ _ _ _ _ Hans).
  simpl. rewrite Hdec. unfold bindingResult.
  rewrite bool_decide_eq_false_2 by (by rewrite Hty).
  apply findMappedAddress_find.
Qed.

Lemma SendBindingRequest_first_mapped_witness :
  answered (scriptedWorld [inr xorOnly]) [] (sampleServer +:+ firstPort)
           (fun txID => bindingRequestMessage txID false false)
           (readDeadline false false) xorOnly
  ∧ decodeMessage (take 1024 xorOnly)
    = Ok {| MessageType := BindingResponse; TransactionID := sampleTxID;
            Attributes := [xorMapped] |}
  ∧ fst (SendBindingRequest (scriptedWorld [inr xorOnly])
                            (sampleServer +:+ firstPort) false false [])
    = Ok {| IP := [203; 0; 113; 1]; Port := 54321 |}.
Proof.
  assert (Hans : answered (scriptedWorld [inr xorOnly]) []
                   (sampleServer +:+ firstPort)
                   (fun txID => bindingRequestMessage txID false false)
                   (readDeadline false false) xorOnly)
    by (split_and!; reflexivity).
  assert (Hdec : decodeMessage (take 1024 xorOnly)
                 = Ok {| MessageType := BindingResponse;
                         TransactionID := sampleTxID;
                         Attributes := [xorMapped] |}) by reflexivity.
  split_and!; [exact Hans|exact Hdec|].
  rewrite (SendBindingRequest_first_mapped _ _ _ _ _ _ _ Hans Hdec eq_refl).
  reflexivity.
Defined.

(** C2, as stated, fails: a MAPPED-ADDRESS that comes before the
    XOR-MAPPED-ADDRESS is the one returned. *)
Lemma SendBindingRequest_mapped_before_xor :
  answered (scriptedWorld [inr mappedThenXor]) [] (sampleServer +:+ firstPort)
           (fun txID => bindingRequestMessage txID false false)
           (readDeadline false false) mappedThenXor
  ∧ decodeMessage (take 1024 mappedThenXor) = Ok mappedThenXorResponse
  ∧ Attributes mappedThenXorResponse = [plainMapped; xorMapped]
  ∧ parseAddress (Value xorMapped) true (TransactionID mappedThenXorResponse)
    = Ok {| IP := [203; 0; 113; 1]; Port := 54321 |}
  ∧ fst (SendBindingRequest (scriptedWorld [inr mappedThenXor])
                            (sampleServer +:+ firstPort) false false [])
    = Ok {| IP := [10; 0; 0; 1]; Port := 1000 |}
  ∧ fst (SendBindingRequest (scriptedWorld [inr mappedThenXor])
                            (sampleServer +:+ firstPort) false false [])
    ≠ parseAddress (Value xorMapped) true (TransactionID mappedThenXorResponse).
Proof.
  split_and!; try reflexivity.
  - split_and!; reflexivity.
  - intros Heq. vm_compute in Heq. discriminate Heq.
Qed.




(** ** The classifiers *)

(** C10. [determineNATType] answers one of the three mapping behaviours and
    never [Unknown]; hence a call of [CheckMappingType] that succeeds reports
    a mapping behaviour other than [Unknown], the one computed from the three
    addresses it returns. *)
Theorem CheckMappingType_never_Unknown :
  (∀ a1 b1 a2 : UDPAddr,
     (determineNATType a1 b1 a2 = EndpointIndependent
      ∨ determineNATType a1 b1 a2 = AddressDependent
      ∨ determineNATType a1 b1 a2 = AddressPortDependent)
     ∧ determineNATType a1 b1 a2 ≠ Unknown)
  ∧ (∀ (w : World) (serverIpA serverIpB : string) (tr tr' : Trace)
       (res : CheckMappingResult),
       CheckMappingType w serverIpA serverIpB tr = (Ok res, tr') ->
       NATType res ≠ Unknown
       ∧ NATType res
         = determineNATType (MappingA1 (MappingResponse res))
                            (MappingB1 (MappingResponse res))
                            (MappingA2 (MappingResponse res))).
Proof.
  assert (Hdet : ∀ a1 b1 a2 : UDPAddr,
            (determineNATType a1 b1 a2 = EndpointIndependent
             ∨ determineNATType a1 b1 a2 = AddressDependent
             ∨ determineNATType a1 b1 a2 = AddressPortDependent)
            ∧ determineNATType a1 b1 a2 ≠ Unknown).
  { intros a1 b1 a2. unfold determineNATType.
    repeat case_bool_decide; split; auto; discriminate. }
  split; [exact Hdet|].
  intros w serverIpA serverIpB tr tr' res.
  unfold CheckMappingType, deferClose, bind, ret, Close.
  destruct (NewSTUNClient w tr) as [[[]|e] tr0]; [|discriminate].
  destruct (tryPorts _ serverIpA _ _ tr0) as [[s1 [a1|e1]] tr1];
    [|discriminate].
  cbn [snd].
  destruct (tryPorts _ serverIpB _ _ tr1) as [[s2 [b1|e2]] tr2];
    [|discriminate].
  cbn [snd].
  destruct (tryPorts _ serverIpA _ _ tr2) as [[s3 [a2|e3]] tr3];
    [|discriminate].
  cbn [snd]. intros [= <- _]. simpl. split; [apply Hdet|done].
Qed.

Lemma CheckMappingType_never_Unknown_witness :
  let w := scriptedWorld [inr xorOnly; inr xorOnly; inr xorOnly] in
  let run := CheckMappingType w sampleServer sampleServer [] in
  run = (Ok {| NATType := EndpointIndependent;
               MappingResponse :=
                 {| MappingA1 := {| IP := [203; 0; 113; 1]; Port := 54321 |};
                    MappingB1 := {| IP := [203; 0; 113; 1]; Port := 54321 |};
                    MappingA2 := {| IP := [203; 0; 113; 1]; Port := 54321 |} |} |},
         snd run)
  ∧ EndpointIndependent ≠ Unknown.
Proof.
  intros w run.
  assert (Hrun : run = (Ok {| NATType := EndpointIndependent;
               MappingResponse :=
                 {| MappingA1 := {| IP := [203; 0; 113; 1]; Port := 54321 |};
                    MappingB1 := {| IP := [203; 0; 113; 1]; Port := 54321 |};
                    MappingA2 := {| IP := [203; 0; 113; 1]; Port := 54321 |} |} |},
         snd run)) by (vm_compute; reflexivity).
  split; [exact Hrun|].
  destruct CheckMappingType_never_Unknown as [_ H].
  exact (proj1 (H w sampleServer sampleServer [] _ _ Hrun)).
Defined.

(** C3. Once Step 1 has harvested an alternate address: if Test II ends with
    a STUN error response (the error [ErrStunResponse], which by
    [bindingResult_stun_error] is returned exactly on a response of type
    Binding Error Response), the classifier returns filtering
    [FilteringUnknown] with [SupportsChangeRequest = false], and its trace
    ends where Test II ended, so no Test III is attempted; if Test II ends
    with a timeout, the classifier runs Test III (change port only), whose
    attempt shows in the trace, and returns the verdict of Test III. *)
Theorem CheckFilteringBehavior_testII_failure (w : World) (serverAddr : string)
    (tr tr1 tr2 tr3 : Trace) (serverWithPort : string) (otherAddr : UDPAddr)
    (e : error) :
  NewSTUNClient w tr = (Ok (), tr1) ->
  tryPorts (GetAlternateAddress w) serverAddr firstPort otherPorts tr1
  = ((serverWithPort, Ok otherAddr), tr2) ->
  SendBindingRequest w serverWithPort true true tr2 = (Err e, tr3) ->
  (∀ code reason, e = ErrStunResponse code reason ->
     CheckFilteringBehavior w serverAddr tr
     = (Ok (verdictUnsupported otherAddr), tr3 ++ [EvClose]))
  ∧ (isTimeout e = true ->
     ∃ r3 events,
       SendBindingRequest w serverWithPort false true tr3
       = (r3, tr3 ++ EvResolve serverWithPort :: events)
       ∧ CheckFilteringBehavior w serverAddr tr
         = (Ok (verdictOfTestIII otherAddr r3),
            (tr3 ++ EvResolve serverWithPort :: events) ++ [EvClose])).
Proof.
  intros Hnew Hstep1 Hstep2.
  unfold CheckFilteringBehavior, deferClose, testII, bind, ret, Close.
  rewrite Hnew, Hstep1. cbn [fst snd]. rewrite Hstep2. cbn [isOk].
  cbn [setTestIIResponse TestIIResponse FilteringResponse].
  split.
  - intros code reason ->. reflexivity.
  - intros ->. unfold testIII, bind, ret.
    destruct (SendBindingRequest_trace w serverWithPort false true tr3)
      as [events Hevents].
    destruct (SendBindingRequest w serverWithPort false true tr3)
      as [r3 tr4] eqn:Hstep3.
    simpl in Hevents. subst tr4. exists r3, events. split; [done|].
    by destruct r3.
Qed.

Lemma CheckFilteringBehavior_testII_failure_witness :
  (let w := unsupportingWorld in
   let step1 := tryPorts (GetAlternateAddress w) sampleServer firstPort
                         otherPorts [EvListen] in
   let step2 := SendBindingRequest w (fst (fst step1)) true true (snd step1) in
   fst step2 = Err (ErrStunResponse 420 [])
   ∧ CheckFilteringBehavior w sampleServer []
     = (Ok (verdictUnsupported {| IP := [198; 51; 100; 2]; Port := 3479 |}),
        snd step2 ++ [EvClose]))
  ∧ (let w := silentWorld in
     let step1 := tryPorts (GetAlternateAddress w) sampleServer firstPort
                           otherPorts [EvListen] in
     let step2 := SendBindingRequest w (fst (fst step1)) true true (snd step1) in
     fst step2 = Err (ErrNet true)
     ∧ ∃ r3 events,
         SendBindingRequest w (fst (fst step1)) false true (snd step2)
         = (r3, snd step2 ++ EvResolve (fst (fst step1)) :: events)
         ∧ CheckFilteringBehavior w sampleServer []
           = (Ok (verdictOfTestIII {| IP := [198; 51; 100; 2]; Port := 3479 |} r3),
              (snd step2 ++ EvResolve (fst (fst step1)) :: events) ++ [EvClose])).
Proof.
  split.
  - intros w step1 step2. split; [reflexivity|].
    assert (H1 : NewSTUNClient w [] = (Ok (), [EvListen])) by reflexivity.
    assert (H2 : tryPorts (GetAlternateAddress w) sampleServer firstPort
                          otherPorts [EvListen]
                 = ((fst (fst step1),
                     Ok {| IP := [198; 51; 100; 2]; Port := 3479 |}),
                    snd step1)) by reflexivity.
    assert (H3 : SendBindingRequest w (fst (fst step1)) true true (snd step1)
                 = (Err (ErrStunResponse 420 []), snd step2)) by reflexivity.
    exact (proj1 (CheckFilteringBehavior_testII_failure w sampleServer
                    _ _ _ _ _ _ _ H1 H2 H3) 420 [] eq_refl).
  - intros w step1 step2. split; [reflexivity|].
    assert (H1 : NewSTUNClient w [] = (Ok (), [EvListen])) by reflexivity.
    assert (H2 : tryPorts (GetAlternateAddress w) sampleServer firstPort
                          otherPorts [EvListen]
                 = ((fst (fst step1),
                     Ok {| IP := [198; 51; 100; 2]; Port := 3479 |}),
                    snd step1)) by reflexivity.
    assert (H3 : SendBindingRequest w (fst (fst step1)) true true (snd step1)
                 = (Err (ErrNet true), snd step2)) by reflexivity.
    exact (proj2 (CheckFilteringBehavior_testII_failure w sampleServer
                    _ _ _ _ _ _ _ H1 H2 H3) eq_refl).
Defined.

(** * Further properties *)

(** ** Of the encoder and the decoder *)

(** X1. The encoding of a well-formed message with a 12-byte transaction
    identifier is: the message type, the length of the attribute section
    modulo 65536, the magic cookie 21 12 A4 42, the transaction identifier,
    and each attribute as type, length, value and zero bytes up to a multiple
    of 4. *)
Theorem encodeMessage_layout (m : STUNMessage) :
  length (TransactionID m) = 12%nat -> wellFormed m ->
  let n := attrSectionLen (Attributes m) mod 65536 in
  encodeMessage m
  = [(MessageType m / 256) mod 256; MessageType m mod 256;
     (n / 256) mod 256; n mod 256; 0x21; 0x12; 0xA4; 0x42]
    ++ TransactionID m
    ++ concat (map wireAttribute (Attributes m)).
Proof.
  intros Htid Hwf n. rewrite encodeMessage_wire by done.
  unfold wireHeader. by rewrite <- app_assoc.
Qed.

Lemma encodeMessage_layout_witness :
  encodeMessage changeRequestMessage
  = [0x00; 0x01; 0x00; 0x08; 0x21; 0x12; 0xA4; 0x42]
    ++ [1; 2; 3; 4; 5; 6; 7; 8; 9; 10; 11; 12]
    ++ [0x00; 0x03; 0x00; 0x04; 0x00; 0x00; 0x00; 0x06].
Proof.
  rewrite (encodeMessage_layout changeRequestMessage eq_refl);
    [reflexivity|unfold wellFormed; compute_done].
Defined.

(** X2. Whatever the values of the attributes are, the encoded message has
    20 bytes plus, for each attribute, 4 bytes, the bytes its length field
    announces and the padding; this size is a multiple of 4. *)
Theorem encodeMessage_size (m : STUNMessage) :
  Forall (fun a => isUint16 (Length a)) (Attributes m) ->
  len (encodeMessage m) = 20 + attrSectionLen (Attributes m)
  ∧ len (encodeMessage m) mod 4 = 0.
Proof.
  intros Hlen. destruct (attrSectionLen_multiple _ Hlen) as (k & Hk & Hsection).
  assert (Hsize : len (encodeMessage m) = 20 + attrSectionLen (Attributes m)).
  { unfold encodeMessage, len. rewrite length_encodeAttributes.
    unfold copyInto, PutUint32, PutUint16, make.
    rewrite !length_inserts, length_replicate. lia. }
  split; [done|]. rewrite Hsize, Hsection. divmod_lia.
Qed.

Lemma encodeMessage_size_witness :
  len (encodeMessage {| MessageType := BindingResponse;
                        TransactionID := sampleTxID;
                        Attributes := [oddAttribute] |}) = 32.
Proof.
  refine (eq_trans (proj1 (encodeMessage_size _ _)) _); [|reflexivity].
  simpl. unfold isUint16. compute_done.
Defined.

(** X3. A message decoded from bytes is within the types and well formed:
    its type and the types and lengths of its attributes are 16-bit values,
    its transaction identifier has 12 bytes, and every length field is the
    length of its value. *)
Theorem decodeMessage_output_wellformed (data : list Z) (m : STUNMessage) :
  Forall isByte data -> decodeMessage data = Ok m ->
  wellTyped m ∧ wellFormed m.
Proof. apply decodeMessage_decoded. Qed.

Lemma decodeMessage_output_wellformed_witness :
  wellTyped mappedThenXorResponse ∧ wellFormed mappedThenXorResponse.
Proof.
  apply (decodeMessage_output_wellformed mappedThenXor);
    [unfold isByte; compute_done|reflexivity].
Defined.

(** X4. Encoding and decoding are inverse on decoded messages: a message
    decoded from bytes, encoded again and decoded again is the same message. *)
Theorem decode_encode_decode (data : list Z) (m : STUNMessage) :
  Forall isByte data -> decodeMessage data = Ok m ->
  decodeMessage (encodeMessage m) = Ok m.
Proof.
  intros Hdata Hdec.
  destruct (decodeMessage_decoded data m Hdata Hdec) as [Hty Hwf].
  by apply decodeMessage_encodeMessage.
Qed.

Lemma decode_encode_decode_witness :
  decodeMessage (encodeMessage mappedThenXorResponse) = Ok mappedThenXorResponse.
Proof.
  apply (decode_encode_decode mappedThenXor);
    [unfold isByte; compute_done|reflexivity].
Defined.

(** X5. The decoder does not look at padding bytes: a 20-byte header followed
    by well-formed attributes, each with any padding of the right length, and
    by a truncated attribute, decodes to these attributes. *)
Theorem decodeMessage_padding_ignored (hdr : list Z)
    (attrs : list STUNAttribute) (pads : list (list Z)) (tail : list Z) :
  length hdr = 20%nat -> paddedAttributes attrs pads ->
  truncatedAttribute tail ->
  decodeMessage (hdr ++ wireAttributesWith attrs pads ++ tail)
  = Ok {| MessageType := Uint16 (slice hdr 0 2);
          TransactionID := slice hdr 8 20;
          Attributes := attrs |}.
Proof.
  intros Hhdr Hpads Htail.
  set (data := hdr ++ wireAttributesWith attrs pads ++ tail).
  assert (Hloop : decodeAttributes (length data) data 20 [] = Some attrs).
  { subst data. replace 20 with (len hdr) by (unfold len; lia).
    rewrite (decodeAttributes_padded attrs pads Hpads); [done..|].
    pose proof (length_wireAttributesWith attrs pads Hpads).
    rewrite !length_app. lia. }
  unfold decodeMessage. rewrite Hloop.
  rewrite bool_decide_eq_false_2
    by (subst data; unfold len; rewrite length_app; lia).
  subst data. do 21 (destruct hdr as [|? hdr]; try discriminate).
  reflexivity.
Qed.

Lemma decodeMessage_padding_ignored_witness :
  decodeMessage (successHeader
                 ++ wireAttributesWith [oddAttribute; xorMapped] [oddPadding; []]
                 ++ [])
  = Ok {| MessageType := BindingResponse;
          TransactionID := sampleTxID;
          Attributes := [oddAttribute; xorMapped] |}.
Proof.
  apply (decodeMessage_padding_ignored successHeader); [reflexivity| |].
  - unfold paddedAttributes, isUint16. compute_done.
  - left. unfold len. simpl. lia.
Defined.

(** X24. The length field of an attribute, not its value, decides what the
    encoder writes: a value longer than its length field is cut, a shorter
    one is filled with zero bytes.  Hence decoding the encoding of any
    message within the types gives the message with its values so adjusted,
    and gives the message itself when it is well formed. *)
Theorem encodeMessage_follows_length_field (m : STUNMessage) :
  wellTyped m ->
  encodeMessage m = encodeMessage (normalizeMessage m)
  ∧ decodeMessage (encodeMessage m) = Ok (normalizeMessage m)
  ∧ (wellFormed m -> normalizeMessage m = m).
Proof.
  intros (Hty & Htid & Hbytes & Hattrs).
  assert (Hlen : Forall (fun a => isUint16 (Length a)) (Attributes m)).
  { eapply Forall_impl; [exact Hattrs|]. by intros a (_ & ? & _). }
  assert (Heq : encodeMessage m = encodeMessage (normalizeMessage m))
    by (by apply encodeMessage_normalizeMessage).
  split_and!; [done| |].
  - rewrite Heq. apply decodeMessage_encodeMessage;
      [|by apply normalizeMessage_wellFormed].
    unfold wellTyped, normalizeMessage. simpl. split_and!; [done..|].
    apply Forall_map. eapply Forall_impl; [exact Hattrs|].
    intros a (Ha1 & Ha2 & Ha3). unfold wellTypedAttribute. simpl.
    split_and!; [done..|].
    apply Forall_app_2; [by apply Forall_take|].
    apply Forall_replicate. unfold isByte. lia.
  - intros Hwf. destruct m as [ty tid attrs]. unfold normalizeMessage.
    simpl in *. f_equal. unfold wellFormed in Hwf. simpl in Hwf.
    clear -Hwf. induction Hwf as [|a attrs Ha _ IH]; [done|].
    cbn [map]. rewrite IH. f_equal. destruct a as [t l v].
    unfold normalizeAttribute. simpl in *. subst l. f_equal.
    unfold len. rewrite Nat2Z.id, firstn_all, Nat.sub_diag. simpl.
    apply app_nil_r.
Qed.

Lemma encodeMessage_follows_length_field_witness :
  decodeMessage (encodeMessage inconsistentMessage)
  = Ok {| MessageType := BindingRequest;
          TransactionID := sampleTxID;
          Attributes := [{| Type_ := ChangeRequest; Length := 2;
                            Value := [1; 2] |};
                         {| Type_ := MappedAddress; Length := 4;
                            Value := [7; 0; 0; 0] |}] |}.
Proof.
  refine (proj1 (proj2 (encodeMessage_follows_length_field
                          inconsistentMessage _))).
  unfold wellTyped, wellTypedAttribute, isUint16, isByte. compute_done.
Defined.

(** ** Of address parsing and error extraction *)

(** X6. [parseAddress] succeeds exactly on values of at least 8 bytes with
    family 0x01 and on values of at least 20 bytes with family 0x02.  A value
    shorter than 8 bytes, an IPv6 value shorter than 20 bytes and any other
    family each fail with their own error; the IPv4 length error is never
    returned. *)
Theorem parseAddress_outcome (data : list Z) (isXor : bool) (txID : list Z) :
  (isOk (parseAddress data isXor txID) = true
   <-> (8 <= len data ∧ byteAt data 1 = 0x01)
       ∨ (20 <= len data ∧ byteAt data 1 = 0x02))
  ∧ (len data < 8 ->
     parseAddress data isXor txID = Err (ErrAddressTooShort (len data)))
  ∧ (8 <= len data < 20 -> byteAt data 1 = 0x02 ->
     parseAddress data isXor txID = Err (ErrIPv6TooShort (len data)))
  ∧ (8 <= len data -> byteAt data 1 ≠ 0x01 -> byteAt data 1 ≠ 0x02 ->
     parseAddress data isXor txID
     = Err (ErrUnsupportedFamily (byteAt data 1) data))
  ∧ (∀ n, parseAddress data isXor txID ≠ Err (ErrIPv4TooShort n)).
Proof.
  unfold parseAddress.
  repeat case_bool_decide; destruct isXor; simpl;
    split_and!; try (intros; first [done | lia | naive_solver lia]).
Qed.

Lemma parseAddress_outcome_witness :
  parseAddress [0x00; 0x01; 0x03] false sampleTxID = Err (ErrAddressTooShort 3)
  ∧ parseAddress [0x00; 0x02; 0x03; 0xE8; 1; 2; 3; 4; 5; 6; 7; 8] true sampleTxID
    = Err (ErrIPv6TooShort 12)
  ∧ parseAddress [0x00; 0x03; 0x03; 0xE8; 10; 0; 0; 1] false sampleTxID
    = Err (ErrUnsupportedFamily 3 [0x00; 0x03; 0x03; 0xE8; 10; 0; 0; 1]).
Proof.
  split_and!.
  - apply (parseAddress_outcome [0x00; 0x01; 0x03] false sampleTxID).
    unfold len. simpl. lia.
  - apply (parseAddress_outcome
             [0x00; 0x02; 0x03; 0xE8; 1; 2; 3; 4; 5; 6; 7; 8] true sampleTxID);
      [unfold len; simpl; lia|reflexivity].
  - apply (parseAddress_outcome [0x00; 0x03; 0x03; 0xE8; 10; 0; 0; 1] false
             sampleTxID); [unfold len; simpl; lia|done..].
Defined.

(** X7. For family 0x01 the address is read from bytes 4..8 and the port from
    bytes 2..4, big-endian; in XOR mode the port is XORed with 0x2112 and the
    address with 21 12 A4 42.  The first byte and the bytes after the eighth
    are not looked at, nor is the transaction identifier. *)
Theorem parseAddress_ipv4_layout (reserved ph pl a b c d : Z)
    (extra txID : list Z) :
  parseAddress (reserved :: 0x01 :: ph :: pl :: a :: b :: c :: d :: extra)
               false txID
  = Ok {| IP := [a; b; c; d]; Port := ph * 256 + pl |}
  ∧ parseAddress (reserved :: 0x01 :: ph :: pl :: a :: b :: c :: d :: extra)
                 true txID
    = Ok {| IP := [Z.lxor a 0x21; Z.lxor b 0x12; Z.lxor c 0xA4; Z.lxor d 0x42];
            Port := Z.lxor (ph * 256 + pl) 0x2112 |}.
Proof.
  unfold parseAddress.
  rewrite !bool_decide_eq_false_2 by (unfold len; simpl; lia).
  split; reflexivity.
Qed.

(** X8. For IPv6 the XOR mode is inverted with the transaction identifier of
    the response: parsing the payload obtained by XOR-obfuscating a 16-byte
    address with the magic cookie followed by a 12-byte transaction
    identifier, and a 16-bit port with 0x2112, gives the address and the port
    back when the same transaction identifier is passed. *)
Theorem parseAddress_xor_ipv6 (ip : list Z) (port : Z) (txID : list Z) :
  length ip = 16%nat -> length txID = 12%nat -> isUint16 port ->
  parseAddress (xorObfuscateIPv6 ip port txID) true txID
  = Ok {| IP := ip; Port := port |}.
Proof.
  intros Hip Htx Hport.
  pose proof (lxor_uint16 port 0x2112 Hport ltac:(unfold isUint16; lia)) as Hx.
  do 17 (destruct ip as [|? ip]; try discriminate).
  do 13 (destruct txID as [|? txID]; try discriminate).
  unfold parseAddress, xorObfuscateIPv6.
  change (cookieByte 0) with 0x21. change (cookieByte 1) with 0x12.
  change (cookieByte 2) with 0xA4. change (cookieByte 3) with 0x42.
  simpl. f_equal. f_equal.
  - unfold xorLoop, copyInto, make, slice, STUNMagicCookieBytes. simpl.
    by rewrite !lxor_cancel.
  - transitivity (Z.lxor (Z.lxor port 0x2112) 0x2112); [|apply lxor_cancel].
    f_equal. unfold slice. simpl. by apply Uint16_bytes.
Qed.

Lemma parseAddress_xor_ipv6_witness :
  parseAddress
    (xorObfuscateIPv6 [0x20; 0x01; 0x0D; 0xB8; 0; 0; 0; 0; 0; 0; 0; 0; 0; 0; 0; 1]
                      54321 sampleTxID) true sampleTxID
  = Ok {| IP := [0x20; 0x01; 0x0D; 0xB8; 0; 0; 0; 0; 0; 0; 0; 0; 0; 0; 0; 1];
          Port := 54321 |}.
Proof.
  apply parseAddress_xor_ipv6; [reflexivity..|unfold isUint16; lia].
Defined.

(** X9. An address parsed from bytes is within its types: it has 4 bytes for
    family 0x01 and 16 bytes for family 0x02, each a byte, and its port is a
    16-bit value, in plain and in XOR mode. *)
Theorem parseAddress_result_range (data : list Z) (isXor : bool)
    (txID : list Z) (addr : UDPAddr) :
  Forall isByte data -> Forall isByte txID ->
  parseAddress data isXor txID = Ok addr ->
  Forall isByte (IP addr) ∧ isUint16 (Port addr)
  ∧ (byteAt data 1 = 0x01 ∧ length (IP addr) = 4%nat
     ∨ byteAt data 1 = 0x02 ∧ length (IP addr) = 16%nat).
Proof.
  intros Hdata Htx. unfold parseAddress.
  assert (Hport : isUint16 (Uint16 (slice data 2 4)))
    by (apply Uint16_range, Forall_slice, Hdata).
  assert (Hxport : isUint16 (Z.lxor (Uint16 (slice data 2 4)) 0x2112))
    by (apply lxor_uint16; [done|unfold isUint16; lia]).
  assert (Hcookie : Forall isByte STUNMagicCookieBytes)
    by (unfold isByte; compute_done).
  assert (Hip : forall n hi, Forall isByte (copyInto (make n) 0 n (slice data 4 hi)))
    by (intros; apply copyInto_bytes; [apply make_bytes|apply Forall_slice, Hdata]).
  assert (Hkey : Forall isByte
            (copyInto (copyInto (make 16) 0 4 STUNMagicCookieBytes) 4 16 txID))
    by (repeat apply copyInto_bytes; done || apply make_bytes).
  repeat case_bool_decide; try done; destruct isXor; intros [= <-]; simpl;
    rewrite ?length_xorLoop, ?length_copyInto;
    (split_and!; [by (apply xorLoop_bytes || idtac)|done|auto]).
Qed.

Lemma parseAddress_result_range_witness :
  Forall isByte [203; 0; 113; 1] ∧ isUint16 54321.
Proof.
  destruct (parseAddress_result_range
              (xorObfuscateIPv4 203 0 113 1 54321) true sampleTxID
              {| IP := [203; 0; 113; 1]; Port := 54321 |})
    as (Hip & Hport & _);
    [unfold isByte; compute_done..|reflexivity|].
  split; [exact Hip|exact Hport].
Defined.

(** X10. The error code is read from the low 3 bits of byte 2 and from byte 3
    of the first ERROR-CODE attribute that has 4 bytes or more; the two
    reserved bytes and the high 5 bits of byte 2 are not looked at, and the
    reason is the rest of the value. *)
Theorem extractErrorCode_decodes (ty : Z) (tid : list Z)
    (before after : list STUNAttribute) (length_field : Z)
    (reserved0 reserved1 high class number : Z) (reason : list Z) :
  Forall (fun a => isLongErrorCode a = false) before ->
  0 <= class < 8 ->
  extractErrorCode
    {| MessageType := ty; TransactionID := tid;
       Attributes :=
         before
         ++ {| Type_ := ErrorCode; Length := length_field;
               Value := reserved0 :: reserved1 :: 8 * high + class :: number
                        :: reason |}
         :: after |}
  = (100 * class + number, reason).
Proof.
  intros Hbefore Hclass. unfold extractErrorCode. simpl.
  induction Hbefore as [|b before Hb _ IH].
  - cbn [app extractErrorCodeFrom Type_ Value].
    rewrite bool_decide_eq_true_2 by done.
    rewrite bool_decide_eq_true_2 by (unfold len; simpl; lia).
    cbn [andb]. unfold byteAt, sliceFrom. simpl. rewrite land_7.
    case_bool_decide as Hlen.
    + f_equal. divmod_lia.
    + destruct reason; [f_equal; divmod_lia|].
      exfalso. apply Hlen. unfold len. simpl. lia.
  - cbn [app extractErrorCodeFrom]. unfold isLongErrorCode in Hb.
    replace (bool_decide (len (Value b) >= 4))
      with (bool_decide (4 <= len (Value b)))
      by (apply bool_decide_ext; lia).
    by rewrite Hb.
Qed.

Lemma extractErrorCode_decodes_witness :
  extractErrorCode
    {| MessageType := BindingErrorResponse; TransactionID := sampleTxID;
       Attributes :=
         [xorMapped]
         ++ {| Type_ := ErrorCode; Length := 21;
               Value := 0xFF :: 0xFF :: 8 * 31 + 4 :: 20 :: unknownAttributeText |}
         :: [] |}
  = (100 * 4 + 20, unknownAttributeText).
Proof.
  apply extractErrorCode_decodes; [by repeat constructor|lia].
Defined.

(** X11. [isChangeRequestUnsupportedError] holds exactly when the first
    ERROR-CODE attribute of 4 bytes or more has class bits and number byte
    (4, 20), (3, 120) or (2, 220): the number byte is not limited to 0..99, so
    three encodings give code 420. *)
Theorem isChangeRequestUnsupportedError_420 (msg : STUNMessage) :
  Forall (fun a => Forall isByte (Value a)) (Attributes msg) ->
  isChangeRequestUnsupportedError msg = true
  <-> ∃ a, List.find isLongErrorCode (Attributes msg) = Some a
           ∧ (Z.land (byteAt (Value a) 2) 0x07 = 4 ∧ byteAt (Value a) 3 = 20
              ∨ Z.land (byteAt (Value a) 2) 0x07 = 3 ∧ byteAt (Value a) 3 = 120
              ∨ Z.land (byteAt (Value a) 2) 0x07 = 2 ∧ byteAt (Value a) 3 = 220).
Proof.
  intros Hbytes. unfold isChangeRequestUnsupportedError, extractErrorCode.
  rewrite extractErrorCodeFrom_find.
  destruct (List.find isLongErrorCode (Attributes msg)) as [a|] eqn:Hfind.
  - apply find_some in Hfind as [Hin _].
    rewrite Forall_forall in Hbytes.
    assert (Hn : isByte (byteAt (Value a) 3)).
    { apply lookup_default_byte, Hbytes. by apply list_elem_of_In. }
    unfold errorOfValue. rewrite bool_decide_eq_true, land_7 in *.
    unfold isByte in Hn. split.
    + intros Hcode. exists a. split; [done|]. rewrite !land_7. divmod_lia.
    + intros (a' & [= <-] & Hcases). rewrite !land_7 in Hcases. divmod_lia.
  - simpl. split; [done|]. by intros (a & Ha & _).
Qed.

Lemma isChangeRequestUnsupportedError_420_witness :
  isChangeRequestUnsupportedError
    {| MessageType := BindingErrorResponse; TransactionID := sampleTxID;
       Attributes := [{| Type_ := ErrorCode; Length := 4;
                         Value := [0; 0; 3; 120] |}] |} = true.
Proof.
  apply isChangeRequestUnsupportedError_420;
    [unfold isByte; compute_done|].
  eexists. split; [reflexivity|]. right. left. split; reflexivity.
Defined.

(** X12. The request of [SendBindingRequest], for a 12-byte transaction
    identifier: 20 bytes without flags, [00 01 00 00], the magic cookie and
    the identifier; with a flag 28 bytes, with length [00 08] and the
    attribute [00 03 00 04 00 00 00 v], where [v] is 4 for change-IP plus 2
    for change-port. *)
Theorem bindingRequest_wire (txID : list Z) (changeIP changePort : bool) :
  length txID = 12%nat ->
  encodeMessage (bindingRequestMessage txID changeIP changePort)
  = if changeIP || changePort then
      [0x00; 0x01; 0x00; 0x08; 0x21; 0x12; 0xA4; 0x42] ++ txID
      ++ [0x00; 0x03; 0x00; 0x04; 0x00; 0x00; 0x00;
          (if changeIP then 4 else 0) + (if changePort then 2 else 0)]
    else [0x00; 0x01; 0x00; 0x00; 0x21; 0x12; 0xA4; 0x42] ++ txID.
Proof.
  intros Htx. do 13 (destruct txID as [|? txID]; try discriminate).
  destruct changeIP, changePort; reflexivity.
Qed.

Lemma bindingRequest_wire_witness :
  encodeMessage (bindingRequestMessage sampleTxID false true)
  = [0x00; 0x01; 0x00; 0x08; 0x21; 0x12; 0xA4; 0x42] ++ sampleTxID
    ++ [0x00; 0x03; 0x00; 0x04; 0x00; 0x00; 0x00; 0x02].
Proof. exact (bindingRequest_wire sampleTxID false true eq_refl). Defined.

(** ** Of the transactions *)

(** X13. A response of type Binding Error Response makes [SendBindingRequest]
    fail with the extracted code and reason, also when the response carries a
    mapped address: the type is tested before the attributes are searched. *)
Theorem SendBindingRequest_error_response (w : World) (serverAddr : string)
    (changeIP changePort : bool) (tr : Trace) (datagram : list Z)
    (response : STUNMessage) :
  answered w tr serverAddr
           (fun txID => bindingRequestMessage txID changeIP changePort)
           (readDeadline changeIP changePort) datagram ->
  decodeMessage (take 1024 datagram) = Ok response ->
  MessageType response = BindingErrorResponse ->
  fst (SendBindingRequest w serverAddr changeIP changePort tr)
  = Err (ErrStunResponse (fst (extractErrorCode response))
                         (snd (extractErrorCode response))).
Proof.
  intros Hans Hdec Hty. rewrite (SendBindingRequest_answered _ _ _ _ _ _ Hans).
  simpl. rewrite Hdec. unfold bindingResult.
  rewrite bool_decide_eq_true_2 by done.
  by destruct (extractErrorCode response).
Qed.

Lemma SendBindingRequest_error_response_witness :
  List.find isMappedAddress
    (match decodeMessage (take 1024 error420WithAddress) with
     | Ok response => Attributes response
     | Err _ => []
     end) = Some xorMapped
  ∧ fst (SendBindingRequest (scriptedWorld [inr error420WithAddress])
                            (sampleServer +:+ firstPort) true true [])
    = Err (ErrStunResponse 420 []).
Proof.
  split; [reflexivity|].
  refine (SendBindingRequest_error_response
            (scriptedWorld [inr error420WithAddress]) _ true true []
            error420WithAddress
            {| MessageType := BindingErrorResponse;
               TransactionID := sampleTxID;
               Attributes := [xorMapped;
                              {| Type_ := ErrorCode; Length := 4;
                                 Value := [0; 0; 4; 20] |}] |} _ _ _);
    [split_and!; reflexivity|reflexivity..].
Defined.

(** X14. The message type of a response is compared with Binding Error
    Response only: a datagram of any other type, a request included, that
    carries a mapped address gives that address. *)
Theorem SendBindingRequest_any_other_type (w : World) (serverAddr : string)
    (changeIP changePort : bool) (tr : Trace) (datagram : list Z)
    (response : STUNMessage) :
  answered w tr serverAddr
           (fun txID => bindingRequestMessage txID changeIP changePort)
           (readDeadline changeIP changePort) datagram ->
  decodeMessage (take 1024 datagram) = Ok response ->
  MessageType response ≠ BindingErrorResponse ->
  fst (SendBindingRequest w serverAddr changeIP changePort tr)
  = match List.find isMappedAddress (Attributes response) with
    | Some a => parseAddress (Value a)
                             (bool_decide (Type_ a = XorMappedAddress))
                             (TransactionID response)
    | None => Err ErrMappedAddressNotFound
    end.
Proof.
  intros Hans Hdec Hty. rewrite (SendBindingRequest_answered _ _ _ _ _ _ Hans).
  simpl. rewrite Hdec. unfold bindingResult.
  rewrite bool_decide_eq_false_2 by done.
  apply findMappedAddress_find.
Qed.

Lemma SendBindingRequest_any_other_type_witness :
  fst (SendBindingRequest (scriptedWorld [inr requestWithAddress])
                          (sampleServer +:+ firstPort) false false [])
  = Ok {| IP := [10; 0; 0; 1]; Port := 1000 |}.
Proof.
  refine (eq_trans
            (SendBindingRequest_any_other_type
               (scriptedWorld [inr requestWithAddress]) _ false false []
               requestWithAddress
               {| MessageType := BindingRequest;
                  TransactionID := [9; 9; 9; 9; 9; 9; 9; 9; 9; 9; 9; 9];
                  Attributes := [plainMapped] |} _ _ _) _);
    [split_and!; reflexivity|reflexivity|discriminate|reflexivity].
Defined.

(** X15. The outcome of an answered transaction is decided by the first 1024
    bytes of the datagram received: the server, the flags and the transaction
    identifier of the request play no part, and what follows byte 1024 is
    dropped. *)
Theorem SendBindingRequest_depends_on_datagram (w w' : World)
    (serverAddr serverAddr' : string)
    (changeIP changePort changeIP' changePort' : bool) (tr tr' : Trace)
    (datagram datagram' : list Z) :
  answered w tr serverAddr
           (fun txID => bindingRequestMessage txID changeIP changePort)
           (readDeadline changeIP changePort) datagram ->
  answered w' tr' serverAddr'
           (fun txID => bindingRequestMessage txID changeIP' changePort')
           (readDeadline changeIP' changePort') datagram' ->
  take 1024 datagram = take 1024 datagram' ->
  fst (SendBindingRequest w serverAddr changeIP changePort tr)
  = fst (SendBindingRequest w' serverAddr' changeIP' changePort' tr').
Proof.
  intros Hans Hans' Heq.
  rewrite (SendBindingRequest_answered _ _ _ _ _ _ Hans).
  rewrite (SendBindingRequest_answered _ _ _ _ _ _ Hans').
  simpl. by rewrite Heq.
Qed.

Lemma SendBindingRequest_depends_on_datagram_witness :
  fst (SendBindingRequest (scriptedWorld [inr (xorOnly ++ replicate 992 0)])
                          (sampleServer +:+ firstPort) false false [])
  = fst (SendBindingRequest
           (scriptedWorld
              [inl true; inr ((xorOnly ++ replicate 992 0) ++ mappedThenXor)])
           "192.0.2.7:19302" true true [EvRead 3]).
Proof.
  apply (SendBindingRequest_depends_on_datagram _ _ _ _ _ _ _ _ _ _
           (xorOnly ++ replicate 992 0)
           ((xorOnly ++ replicate 992 0) ++ mappedThenXor));
    [split_and!; reflexivity..|].
  by vm_compute.
Defined.

(** X16. A failing step ends a transaction with the error of that step:
    after a failed resolution nothing is sent, after a failed send nothing is
    received, a failed receive (a timeout among them) is returned as it is,
    and a datagram shorter than 20 bytes is a message-too-short error.  The
    same holds for [GetAlternateAddress]. *)
Theorem transactions_fail_at_first_error (w : World) (serverAddr : string)
    (changeIP changePort : bool) (tr : Trace) :
  let msg := fun txID => bindingRequestMessage txID changeIP changePort in
  let sent := (tr ++ [EvResolve serverAddr]) ++ [EvRand] in
  (∀ timeout, resolveUDPAddr w tr serverAddr = Some timeout ->
     SendBindingRequest w serverAddr changeIP changePort tr
     = (Err (ErrNet timeout), tr ++ [EvResolve serverAddr])
     ∧ GetAlternateAddress w serverAddr tr
       = (Err (ErrNet timeout), tr ++ [EvResolve serverAddr]))
  ∧ (∀ timeout, resolveUDPAddr w tr serverAddr = None ->
       writeToUDP w sent serverAddr (requestOf w tr serverAddr msg)
       = Some timeout ->
       SendBindingRequest w serverAddr changeIP changePort tr
       = (Err (ErrNet timeout),
          sent ++ [EvWrite serverAddr (requestOf w tr serverAddr msg)]))
  ∧ (∀ timeout, resolveUDPAddr w tr serverAddr = None ->
       writeToUDP w sent serverAddr (requestOf w tr serverAddr msg) = None ->
       readFromUDP w
         (sent ++ [EvWrite serverAddr (requestOf w tr serverAddr msg)])
         (readDeadline changeIP changePort) = inl timeout ->
       SendBindingRequest w serverAddr changeIP changePort tr
       = (Err (ErrNet timeout),
          exchangeTrace w tr serverAddr msg (readDeadline changeIP changePort)))
  ∧ (∀ datagram,
       answered w tr serverAddr msg (readDeadline changeIP changePort) datagram ->
       len datagram < 20 ->
       fst (SendBindingRequest w serverAddr changeIP changePort tr)
       = Err ErrMessageTooShort)
  ∧ (∀ datagram,
       answered w tr serverAddr plainRequestMessage 3 datagram ->
       len datagram < 20 ->
       fst (GetAlternateAddress w serverAddr tr) = Err ErrMessageTooShort).
Proof.
  intros msg sent.
  assert (Hshort : ∀ datagram : list Z, len datagram < 20 ->
            decodeMessage (take 1024 datagram) = Err ErrMessageTooShort).
  { intros datagram Hlen. unfold decodeMessage.
    rewrite bool_decide_eq_true_2; [done|].
    unfold len in *. rewrite length_take. lia. }
  split_and!.
  - intros timeout Hres.
    rewrite SendBindingRequest_run, GetAlternateAddress_run. simpl.
    by rewrite Hres.
  - intros timeout Hres Hwr. rewrite SendBindingRequest_run. simpl.
    subst sent msg. by rewrite Hres, Hwr.
  - intros timeout Hres Hwr Hrd. rewrite SendBindingRequest_run. simpl.
    subst sent msg. by rewrite Hres, Hwr, Hrd.
  - intros datagram Hans Hlen.
    rewrite (SendBindingRequest_answered _ _ _ _ _ _ Hans). simpl.
    by rewrite Hshort.
  - intros datagram Hans Hlen.
    rewrite (GetAlternateAddress_answered _ _ _ _ Hans). simpl.
    by rewrite Hshort.
Qed.

Lemma transactions_fail_at_first_error_witness :
  SendBindingRequest unresolvedWorld sampleServer true true []
  = (Err (ErrNet false), [EvResolve sampleServer])
  ∧ SendBindingRequest unsendingWorld sampleServer false false []
    = (Err (ErrNet false),
       [EvResolve sampleServer; EvRand;
        EvWrite sampleServer
          ([0x00; 0x01; 0x00; 0x00; 0x21; 0x12; 0xA4; 0x42] ++ sampleTxID)])
  ∧ SendBindingRequest (scriptedWorld []) sampleServer false false []
    = (Err (ErrNet true),
       [EvResolve sampleServer; EvRand;
        EvWrite sampleServer
          ([0x00; 0x01; 0x00; 0x00; 0x21; 0x12; 0xA4; 0x42] ++ sampleTxID);
        EvRead 3])
  ∧ fst (SendBindingRequest (scriptedWorld [inr [0x01; 0x01; 0x00; 0x00]])
                            sampleServer false false [])
    = Err ErrMessageTooShort
  ∧ fst (GetAlternateAddress (scriptedWorld [inr [0x01; 0x01; 0x00; 0x00]])
                             sampleServer [])
    = Err ErrMessageTooShort.
Proof.
  split_and!.
  - apply (transactions_fail_at_first_error unresolvedWorld sampleServer
             true true []). reflexivity.
  - apply (transactions_fail_at_first_error unsendingWorld sampleServer
             false false [] : _ ∧ _); reflexivity.
  - apply (proj1 (proj2 (proj2 (transactions_fail_at_first_error
             (scriptedWorld []) sampleServer false false [])))); reflexivity.
  - apply (proj1 (proj2 (proj2 (proj2 (transactions_fail_at_first_error
             (scriptedWorld [inr [0x01; 0x01; 0x00; 0x00]]) sampleServer
             false false []))))
           [0x01; 0x01; 0x00; 0x00]);
      [split_and!; reflexivity|unfold len; simpl; lia].
  - apply (proj2 (proj2 (proj2 (proj2 (transactions_fail_at_first_error
             (scriptedWorld [inr [0x01; 0x01; 0x00; 0x00]]) sampleServer
             false false []))))
           [0x01; 0x01; 0x00; 0x00]);
      [split_and!; reflexivity|unfold len; simpl; lia].
Defined.

(** ** Of the classifiers *)

(** X17. [CheckMappingType] as a function of its three probes, once the
    socket is bound.  The probes run in the order A, B, A, each starting again
    at port 3478.  The first probe that fails on both ports ends the run with
    the error of its last attempt wrapped with its stage, and no later probe
    is made; three successes give the verdict of [determineNATType] and the
    three addresses.  The socket is closed in every case. *)
Theorem CheckMappingType_stages (w : World) (serverIpA serverIpB : string)
    (tr tr1 : Trace) :
  let probe := fun s => SendBindingRequest w s false false in
  NewSTUNClient w tr = (Ok (), tr1) ->
  (∀ s e tr2,
     tryPorts probe serverIpA firstPort otherPorts tr1 = ((s, Err e), tr2) ->
     CheckMappingType w serverIpA serverIpB tr
     = (Err (ErrWrap "サーバーAへのリクエスト失敗" e), tr2 ++ [EvClose]))
  ∧ (∀ s a1 tr2 s' e tr3,
       tryPorts probe serverIpA firstPort otherPorts tr1 = ((s, Ok a1), tr2) ->
       tryPorts probe serverIpB firstPort otherPorts tr2 = ((s', Err e), tr3) ->
       CheckMappingType w serverIpA serverIpB tr
       = (Err (ErrWrap "サーバーBへのリクエスト失敗" e), tr3 ++ [EvClose]))
  ∧ (∀ s a1 tr2 s' b1 tr3 s'' e tr4,
       tryPorts probe serverIpA firstPort otherPorts tr1 = ((s, Ok a1), tr2) ->
       tryPorts probe serverIpB firstPort otherPorts tr2 = ((s', Ok b1), tr3) ->
       tryPorts probe serverIpA firstPort otherPorts tr3 = ((s'', Err e), tr4) ->
       CheckMappingType w serverIpA serverIpB tr
       = (Err (ErrWrap "サーバーAへの2回目リクエスト失敗" e), tr4 ++ [EvClose]))
  ∧ (∀ s a1 tr2 s' b1 tr3 s'' a2 tr4,
       tryPorts probe serverIpA firstPort otherPorts tr1 = ((s, Ok a1), tr2) ->
       tryPorts probe serverIpB firstPort otherPorts tr2 = ((s', Ok b1), tr3) ->
       tryPorts probe serverIpA firstPort otherPorts tr3 = ((s'', Ok a2), tr4) ->
       CheckMappingType w serverIpA serverIpB tr
       = (Ok {| NATType := determineNATType a1 b1 a2;
                MappingResponse := {| MappingA1 := a1; MappingB1 := b1;
                                      MappingA2 := a2 |} |},
          tr4 ++ [EvClose]))
  ∧ (∀ s e1 tr2,
       probe (s +:+ ":3478") tr1 = (Err e1, tr2) ->
       tryPorts probe s firstPort otherPorts tr1
       = ((s +:+ ":19302", fst (probe (s +:+ ":19302") tr2)),
          snd (probe (s +:+ ":19302") tr2))).
Proof.
  intros probe Hnew.
  unfold CheckMappingType, deferClose, bind, ret, Close. rewrite Hnew.
  fold probe. split_and!.
  - intros s e tr2 ->. reflexivity.
  - intros s a1 tr2 s' e tr3 -> . cbn [snd]. intros ->. reflexivity.
  - intros s a1 tr2 s' b1 tr3 s'' e tr4 ->. cbn [snd]. intros ->. cbn [snd].
    intros ->. reflexivity.
  - intros s a1 tr2 s' b1 tr3 s'' a2 tr4 ->. cbn [snd]. intros ->. cbn [snd].
    intros ->. reflexivity.
  - intros s e1 tr2 Hfirst. by rewrite tryPorts_run, Hfirst.
Qed.

Lemma CheckMappingType_stages_witness :
  (let w := scriptedWorld [inl true; inl true] in
   CheckMappingType w sampleServer "stun.example.net" []
   = (Err (ErrWrap "サーバーAへのリクエスト失敗" (ErrNet true)),
      snd (tryPorts (fun s => SendBindingRequest w s false false) sampleServer
                    firstPort otherPorts [EvListen]) ++ [EvClose]))
  ∧ (let w := scriptedWorld [inl true; inr xorOnly; inr mappedThenXor;
                             inr xorOnly] in
     let probe := fun s => SendBindingRequest w s false false in
     let run1 := tryPorts probe sampleServer firstPort otherPorts [EvListen] in
     let run2 := tryPorts probe "stun.example.net" firstPort otherPorts
                          (snd run1) in
     let run3 := tryPorts probe sampleServer firstPort otherPorts (snd run2) in
     CheckMappingType w sampleServer "stun.example.net" []
     = (Ok {| NATType := AddressDependent;
              MappingResponse :=
                {| MappingA1 := {| IP := [203; 0; 113; 1]; Port := 54321 |};
                   MappingB1 := {| IP := [10; 0; 0; 1]; Port := 1000 |};
                   MappingA2 := {| IP := [203; 0; 113; 1]; Port := 54321 |} |} |},
        snd run3 ++ [EvClose])).
Proof.
  split.
  - intros w.
    refine (proj1 (CheckMappingType_stages w sampleServer "stun.example.net"
                     [] [EvListen] eq_refl) (sampleServer +:+ ":19302") _ _ _).
    reflexivity.
  - intros w probe run1 run2 run3.
    refine (proj1 (proj2 (proj2 (proj2
              (CheckMappingType_stages w sampleServer "stun.example.net"
                 [] [EvListen] eq_refl))))
              (fst (fst run1)) {| IP := [203; 0; 113; 1]; Port := 54321 |}
              (snd run1)
              (fst (fst run2)) {| IP := [10; 0; 0; 1]; Port := 1000 |}
              (snd run2)
              (fst (fst run3)) {| IP := [203; 0; 113; 1]; Port := 54321 |}
              (snd run3) _ _ _); reflexivity.
Defined.

(** X18. The classifiers bind one socket and close it on every path: when
    the socket cannot be bound they fail with the wrapped error and make no
    transaction; otherwise their trace is the binding, transaction events,
    and the closing as its last event. *)
Theorem classifiers_close_socket (w : World) (serverIpA serverIpB : string)
    (tr : Trace) :
  (∀ timeout, listenUDP w tr = Some timeout ->
     CheckMappingType w serverIpA serverIpB tr
     = (Err (ErrWrap "STUNクライアント作成エラー" (ErrNet timeout)),
        tr ++ [EvListen])
     ∧ CheckFilteringBehavior w serverIpA tr
       = (Err (ErrWrap "STUNクライアント作成エラー" (ErrNet timeout)),
          tr ++ [EvListen]))
  ∧ (listenUDP w tr = None ->
     (∃ events, snd (CheckMappingType w serverIpA serverIpB tr)
                = tr ++ [EvListen] ++ events ++ [EvClose]
                ∧ Forall isTransactionEvent events)
     ∧ (∃ events, snd (CheckFilteringBehavior w serverIpA tr)
                  = tr ++ [EvListen] ++ events ++ [EvClose]
                  ∧ Forall isTransactionEvent events)).
Proof.
  split.
  - intros timeout Hlisten.
    unfold CheckMappingType, CheckFilteringBehavior, bind, ret, NewSTUNClient.
    by rewrite Hlisten.
  - intros Hlisten. split.
    + unfold CheckMappingType, deferClose, bind, ret, Close, NewSTUNClient.
      rewrite Hlisten.
      set (probe := fun s => SendBindingRequest w s false false).
      assert (Hprobe : ∀ s tr0, ∃ events, snd (probe s tr0) = tr0 ++ events
                                          ∧ Forall isTransactionEvent events)
        by (intros; apply SendBindingRequest_events).
      destruct (tryPorts_events probe Hprobe serverIpA (tr ++ [EvListen]))
        as (ev1 & H1 & Hev1).
      destruct (tryPorts probe serverIpA _ _ _) as [[s1 [a1|e1]] tr1];
        simpl in H1; subst tr1; cbn [snd].
      2:{ exists ev1. by rewrite <- !app_assoc. }
      destruct (tryPorts_events probe Hprobe serverIpB ((tr ++ [EvListen]) ++ ev1))
        as (ev2 & H2 & Hev2).
      destruct (tryPorts probe serverIpB _ _ _) as [[s2 [b1|e2]] tr2];
        simpl in H2; subst tr2; cbn [snd].
      2:{ exists (ev1 ++ ev2). rewrite <- !app_assoc.
          split; [done|by apply Forall_app_2]. }
      destruct (tryPorts_events probe Hprobe serverIpA
                  (((tr ++ [EvListen]) ++ ev1) ++ ev2)) as (ev3 & H3 & Hev3).
      destruct (tryPorts probe serverIpA _ _ (((tr ++ [EvListen]) ++ ev1) ++ ev2))
        as [[s3 r3] tr3]; simpl in H3; subst tr3.
      exists (ev1 ++ ev2 ++ ev3).
      split; [|by repeat apply Forall_app_2].
      destruct r3; cbn [snd]; by rewrite <- !app_assoc.
    + unfold CheckFilteringBehavior, deferClose, testII, testIII, bind, ret,
        Close, NewSTUNClient.
      rewrite Hlisten.
      destruct (tryPorts_events (GetAlternateAddress w)
                  (GetAlternateAddress_events w) serverIpA (tr ++ [EvListen]))
        as (ev1 & H1 & Hev1).
      destruct (tryPorts (GetAlternateAddress w) serverIpA _ _ _)
        as [[s1 [a1|e1]] tr1]; simpl in H1; subst tr1; cbn [fst snd].
      2:{ exists ev1. by rewrite <- !app_assoc. }
      destruct (SendBindingRequest_events w s1 true true
                  ((tr ++ [EvListen]) ++ ev1)) as (ev2 & H2 & Hev2).
      destruct (SendBindingRequest w s1 true true _) as [r2 tr2];
        simpl in H2; subst tr2.
      destruct r2 as [a2|e2]; cbn [isOk setTestIIResponse TestIIResponse
                                   FilteringResponse].
      { exists (ev1 ++ ev2). rewrite <- !app_assoc.
        split; [done|by apply Forall_app_2]. }
      destruct (isTimeout e2).
      * destruct (SendBindingRequest_events w s1 false true
                    (((tr ++ [EvListen]) ++ ev1) ++ ev2)) as (ev3 & H3 & Hev3).
        destruct (SendBindingRequest w s1 false true _) as [r3 tr3];
          simpl in H3; subst tr3.
        exists (ev1 ++ ev2 ++ ev3).
        split; [|by repeat apply Forall_app_2].
        destruct r3; simpl; by rewrite <- !app_assoc.
      * exists (ev1 ++ ev2). rewrite <- !app_assoc.
        split; [done|by apply Forall_app_2].
Qed.

Lemma classifiers_close_socket_witness :
  CheckFilteringBehavior unboundWorld sampleServer []
  = (Err (ErrWrap "STUNクライアント作成エラー" (ErrNet false)), [EvListen])
  ∧ ∃ events, snd (CheckFilteringBehavior silentWorld sampleServer [])
              = [] ++ [EvListen] ++ events ++ [EvClose]
              ∧ Forall isTransactionEvent events.
Proof.
  split.
  - apply (proj1 (classifiers_close_socket unboundWorld sampleServer
                    sampleServer []) false eq_refl).
  - apply (proj2 (classifiers_close_socket silentWorld sampleServer
                    sampleServer []) eq_refl).
Defined.

(** X19. Once the socket is bound [CheckFilteringBehavior] returns a result
    and no error, whatever the probes do, and the result is consistent: a
    verdict other than unknown comes with both support flags set; the
    CHANGE-REQUEST flag is set exactly when the verdict is not unknown; the
    OTHER-ADDRESS flag is set exactly when an alternate address is reported;
    Test II is recorded as answered exactly for endpoint-independent
    filtering and Test III exactly for address-dependent filtering. *)
Theorem CheckFilteringBehavior_result_consistent (w : World)
    (serverAddr : string) (tr : Trace) :
  listenUDP w tr = None ->
  ∃ res, fst (CheckFilteringBehavior w serverAddr tr) = Ok res
    ∧ (FilteringType res ≠ FilteringUnknown ->
       SupportsChangeRequest (ServerSupport res) = true
       ∧ SupportsOtherAddress (ServerSupport res) = true)
    ∧ (SupportsChangeRequest (ServerSupport res) = true
       <-> FilteringType res ≠ FilteringUnknown)
    ∧ (SupportsOtherAddress (ServerSupport res) = true
       <-> OtherAddress_ (FilteringResponse res) ≠ None)
    ∧ (TestIIResponse (FilteringResponse res) = true
       <-> FilteringType res = EndpointIndependentFiltering)
    ∧ (TestIIIResponse (FilteringResponse res) = true
       <-> FilteringType res = AddressDependentFiltering).
Proof.
  intros Hlisten.
  unfold CheckFilteringBehavior, deferClose, testII, testIII, bind, ret, Close,
    NewSTUNClient.
  rewrite Hlisten.
  destruct (tryPorts (GetAlternateAddress w) serverAddr _ _ _)
    as [[s1 [a1|e1]] tr1]; cbn [fst snd].
  2:{ eexists. split; [reflexivity|]. simpl. split_and!; naive_solver. }
  destruct (SendBindingRequest w s1 true true tr1) as [[a2|e2] tr2];
    cbn [isOk setTestIIResponse TestIIResponse FilteringResponse].
  { eexists. split; [reflexivity|]. simpl.
    rewrite ?bool_decide_eq_true_2 by done. split_and!; naive_solver. }
  destruct (isTimeout e2).
  - destruct (SendBindingRequest w s1 false true tr2) as [[a3|e3] tr3];
      (eexists; split; [reflexivity|]; simpl;
       rewrite ?bool_decide_eq_true_2 by done; split_and!; naive_solver).
  - eexists. split; [reflexivity|]. simpl.
    rewrite ?bool_decide_eq_true_2 by done. split_and!; naive_solver.
Qed.

Lemma CheckFilteringBehavior_result_consistent_witness :
  ∃ res, fst (CheckFilteringBehavior silentWorld sampleServer []) = Ok res
    ∧ (SupportsChangeRequest (ServerSupport res) = true
       <-> FilteringType res ≠ FilteringUnknown).
Proof.
  destruct (CheckFilteringBehavior_result_consistent silentWorld sampleServer
              [] eq_refl) as (res & Hres & _ & Hflag & _).
  exists res. split; [exact Hres|exact Hflag].
Defined.

(** X20. When no alternate address can be harvested on either port, the
    filtering classifier reports unknown filtering with both support flags
    unset and no alternate address, returns no error, and sends no
    CHANGE-REQUEST: its trace ends with Step 1 and the closing. *)
Theorem CheckFilteringBehavior_no_alternate (w : World) (serverAddr : string)
    (tr tr1 tr2 : Trace) (serverWithPort : string) (e : error) :
  NewSTUNClient w tr = (Ok (), tr1) ->
  tryPorts (GetAlternateAddress w) serverAddr firstPort otherPorts tr1
  = ((serverWithPort, Err e), tr2) ->
  CheckFilteringBehavior w serverAddr tr
  = (Ok verdictNoAlternate, tr2 ++ [EvClose]).
Proof.
  intros Hnew Hstep1.
  unfold CheckFilteringBehavior, deferClose, bind, ret, Close.
  by rewrite Hnew, Hstep1.
Qed.

Lemma CheckFilteringBehavior_no_alternate_witness :
  let step1 := tryPorts (GetAlternateAddress plainWorld) sampleServer firstPort
                        otherPorts [EvListen] in
  fst step1 = (sampleServer +:+ ":19302", Err ErrOtherAddressNotFound)
  ∧ CheckFilteringBehavior plainWorld sampleServer []
    = (Ok verdictNoAlternate, snd step1 ++ [EvClose]).
Proof.
  intros step1. split; [reflexivity|].
  apply (CheckFilteringBehavior_no_alternate plainWorld sampleServer []
           [EvListen] (snd step1) (sampleServer +:+ ":19302")
           ErrOtherAddressNotFound); reflexivity.
Defined.

(** X21. With an alternate address harvested, Test II decides alone in two
    cases: an answer with a mapped address gives endpoint-independent
    filtering, and any error that is not a timeout (a STUN error, a response
    without mapped address, a malformed datagram, an I/O error) gives unknown
    filtering with the CHANGE-REQUEST flag unset.  In both cases Test III is
    not run: the trace ends with Test II and the closing. *)
Theorem CheckFilteringBehavior_testII_decides (w : World) (serverAddr : string)
    (tr tr1 tr2 tr3 : Trace) (serverWithPort : string) (otherAddr : UDPAddr)
    (r2 : errorOr UDPAddr) :
  NewSTUNClient w tr = (Ok (), tr1) ->
  tryPorts (GetAlternateAddress w) serverAddr firstPort otherPorts tr1
  = ((serverWithPort, Ok otherAddr), tr2) ->
  SendBindingRequest w serverWithPort true true tr2 = (r2, tr3) ->
  (∀ addr, r2 = Ok addr ->
     CheckFilteringBehavior w serverAddr tr
     = (Ok (verdictEndpointIndependent otherAddr), tr3 ++ [EvClose]))
  ∧ (∀ e, r2 = Err e -> isTimeout e = false ->
       CheckFilteringBehavior w serverAddr tr
       = (Ok (verdictUnsupported otherAddr), tr3 ++ [EvClose])).
Proof.
  intros Hnew Hstep1 Hstep2.
  unfold CheckFilteringBehavior, deferClose, testII, bind, ret, Close.
  rewrite Hnew, Hstep1. cbn [fst snd]. rewrite Hstep2.
  split.
  - intros addr ->. reflexivity.
  - intros e -> Htimeout. cbn [isOk setTestIIResponse TestIIResponse
                                FilteringResponse].
    by rewrite Htimeout.
Qed.

Lemma CheckFilteringBehavior_testII_decides_witness :
  (let step1 := tryPorts (GetAlternateAddress openWorld) sampleServer firstPort
                         otherPorts [EvListen] in
   let step2 := SendBindingRequest openWorld (fst (fst step1)) true true
                                   (snd step1) in
   CheckFilteringBehavior openWorld sampleServer []
   = (Ok (verdictEndpointIndependent {| IP := [198; 51; 100; 2]; Port := 3479 |}),
      snd step2 ++ [EvClose]))
  ∧ (let step1 := tryPorts (GetAlternateAddress emptyAnswerWorld) sampleServer
                           firstPort otherPorts [EvListen] in
     let step2 := SendBindingRequest emptyAnswerWorld (fst (fst step1)) true true
                                     (snd step1) in
     fst step2 = Err ErrMappedAddressNotFound
     ∧ CheckFilteringBehavior emptyAnswerWorld sampleServer []
       = (Ok (verdictUnsupported {| IP := [198; 51; 100; 2]; Port := 3479 |}),
          snd step2 ++ [EvClose])).
Proof.
  split.
  - intros step1 step2.
    refine (proj1 (CheckFilteringBehavior_testII_decides openWorld sampleServer
                     [] [EvListen] (snd step1) (snd step2) (fst (fst step1))
                     {| IP := [198; 51; 100; 2]; Port := 3479 |} (fst step2)
                     eq_refl _ _)
                  {| IP := [203; 0; 113; 1]; Port := 54321 |} _); reflexivity.
  - intros step1 step2. split; [reflexivity|].
    refine (proj2 (CheckFilteringBehavior_testII_decides emptyAnswerWorld
                     sampleServer [] [EvListen] (snd step1) (snd step2)
                     (fst (fst step1))
                     {| IP := [198; 51; 100; 2]; Port := 3479 |} (fst step2)
                     eq_refl _ _)
                  ErrMappedAddressNotFound _ _); reflexivity.
Defined.

(** X22. [FullNATDetection] runs the mapping classifier, then the filtering
    classifier against server A.  An error of the mapping classifier is
    returned wrapped and the filtering classifier is not run.  On success the
    detailed type pairs the two verdicts, its mapping is never unknown, and
    its legacy name is "Unknown NAT Type" exactly when the mapping is
    endpoint-independent and the filtering unknown. *)
Theorem FullNATDetection_composition (w : World) (serverIpA serverIpB : string)
    (tr : Trace) :
  (∀ e tr1, CheckMappingType w serverIpA serverIpB tr = (Err e, tr1) ->
     FullNATDetection w serverIpA serverIpB tr
     = (Err (ErrWrap "マッピング判定エラー" e), tr1))
  ∧ (∀ m tr1 e tr2,
       CheckMappingType w serverIpA serverIpB tr = (Ok m, tr1) ->
       CheckFilteringBehavior w serverIpA tr1 = (Err e, tr2) ->
       FullNATDetection w serverIpA serverIpB tr
       = (Err (ErrWrap "フィルタリング判定エラー" e), tr2))
  ∧ (∀ m tr1 f tr2,
       CheckMappingType w serverIpA serverIpB tr = (Ok m, tr1) ->
       CheckFilteringBehavior w serverIpA tr1 = (Ok f, tr2) ->
       let detailed := {| Mapping := NATType m; Filtering := FilteringType f |} in
       FullNATDetection w serverIpA serverIpB tr
       = (Ok {| DetailedType := detailed; MappingResult := m;
                FilteringResult := f |}, tr2)
       ∧ Mapping detailed ≠ Unknown
       ∧ (LegacyName detailed = "Unknown NAT Type"%string
          <-> NATType m = EndpointIndependent
              ∧ FilteringType f = FilteringUnknown)).
Proof.
  unfold FullNATDetection, bind, ret. split_and!.
  - by intros e tr1 ->.
  - intros m tr1 e tr2 ->. by intros ->.
  - intros m tr1 f tr2 Hm Hf. rewrite Hm, Hf.
    split; [done|].
    pose proof (CheckMappingType_Ok w _ _ _ _ _ Hm) as Hty.
    assert (Hknown : NATType m ≠ Unknown).
    { rewrite Hty. unfold determineNATType. repeat case_bool_decide; done. }
    split; [done|]. unfold LegacyName. simpl.
    destruct (NATType m), (FilteringType f); simpl; try done;
      (split; [intros H; first [discriminate H | done]
              |intros [H1 H2]; first [discriminate | done]]).
Qed.

Lemma FullNATDetection_composition_witness :
  let w := scriptedWorld [inr xorOnly; inr xorOnly; inr xorOnly;
                          inr otherOnly; inr xorOnly] in
  ∃ m tr1 f tr2,
    CheckMappingType w sampleServer "stun.example.net" [] = (Ok m, tr1)
    ∧ CheckFilteringBehavior w sampleServer tr1 = (Ok f, tr2)
    ∧ NATType m = EndpointIndependent
    ∧ FilteringType f = EndpointIndependentFiltering
    ∧ FullNATDetection w sampleServer "stun.example.net" []
      = (Ok {| DetailedType := {| Mapping := NATType m;
                                  Filtering := FilteringType f |};
               MappingResult := m; FilteringResult := f |}, tr2).
Proof.
  intros w.
  destruct (CheckMappingType w sampleServer "stun.example.net" [])
    as [[m|e] tr1] eqn:Hm; [|by vm_compute in Hm].
  destruct (CheckFilteringBehavior w sampleServer tr1)
    as [[f|e] tr2] eqn:Hf;
    [|vm_compute in Hm; injection Hm as <- <-; by vm_compute in Hf].
  exists m, tr1, f, tr2. split_and!; [done..| | |].
  - vm_compute in Hm. by injection Hm as <- <-.
  - vm_compute in Hm. injection Hm as <- <-. vm_compute in Hf.
    by injection Hf as <- <-.
  - apply (proj2 (proj2 (FullNATDetection_composition w sampleServer
                           "stun.example.net" [])) m tr1 f tr2 Hm Hf).
Defined.

(** ** Of the names *)

(** X23. The names of the mapping behaviours, of the filtering behaviours and
    of the detailed types are pairwise different, so a detailed type can be
    read back from its name; the legacy name does not have this property. *)
Theorem behaviour_names_distinct :
  (∀ m m', NATMappingType_String m = NATMappingType_String m' -> m = m')
  ∧ (∀ f f', NATFilteringType_String f = NATFilteringType_String f' -> f = f')
  ∧ (∀ d d', DetailedNATType_String d = DetailedNATType_String d' -> d = d')
  ∧ (∃ d d', d ≠ d' ∧ LegacyName d = LegacyName d').
Proof.
  split_and!.
  - intros [] []; (done || (intros H; vm_compute in H; discriminate H)).
  - intros [] []; (done || (intros H; vm_compute in H; discriminate H)).
  - intros [[] []] [[] []];
      (done || (intros H; vm_compute in H; discriminate H)).
  - exists {| Mapping := AddressDependent;
              Filtering := EndpointIndependentFiltering |},
           {| Mapping := AddressPortDependent;
              Filtering := FilteringUnknown |}.
    split; [discriminate|reflexivity].
Qed.

Lemma behaviour_names_distinct_witness :
  {| Mapping := AddressDependent; Filtering := FilteringUnknown |}
  = {| Mapping := AddressDependent; Filtering := FilteringUnknown |}.
Proof.
  apply (proj1 (proj2 (proj2 behaviour_names_distinct))). reflexivity.
Defined.
